(** * Jarvis Lead Finder, front end

    A shallow embedding of the TypeScript front end of the lead finder
    ([frontend/utils/api.ts], [frontend/components/ScrapeForm.tsx],
    [components/LeadsTable], [components/StatsSummary]) and the properties
    its specification states about it.

    - JavaScript strings are sequences of UTF-16 code units, numbers are
      IEEE 754 binary64 values (Rocq's primitive floats).
    - [async] functions are finite programs over the effects they perform;
      an [await] on an HTTP request is an effect whose answer is supplied by
      the environment, so a handler can be run up to its first suspension
      point and resumed later.
    - React components are functions from props and state to a view. *)

From Stdlib Require Import ZArith NArith List Bool String Ascii Lia.
From Stdlib Require Import Floats Uint63.
Import ListNotations.

Set Implicit Arguments.

(* ================================================================== *)
(** ** JavaScript values                                               *)
(* ================================================================== *)

Module Js.

(** A string is a sequence of UTF-16 code units. *)
Definition JsString : Type := list N.

(** A source literal (ASCII only in this code base). *)
Definition lit (s : string) : JsString :=
  map N_of_ascii (list_ascii_of_string s).

(** ECMAScript [WhiteSpace] and [LineTerminator] code points, all of them in
    the basic plane: TAB, LF, VT, FF, CR, SP, NBSP, U+1680, U+2000..U+200A,
    LS, PS, U+202F, U+205F, U+3000 and the byte order mark. *)
Definition isWhiteSpace (c : N) : bool :=
  ((9 <=? c) && (c <=? 13) || (c =? 32) || (c =? 160) || (c =? 5760)
   || (8192 <=? c) && (c <=? 8202) || (c =? 8232) || (c =? 8233)
   || (c =? 8239) || (c =? 8287) || (c =? 12288) || (c =? 65279))%N.

(** The empty string. *)
Definition empty : JsString := [].

(** [String.prototype.trimStart], [trimEnd] and [trim]. *)
Fixpoint trimStart (s : JsString) : JsString :=
  match s with
  | [] => []
  | c :: r => if isWhiteSpace c then trimStart r else s
  end.

Definition trimEnd (s : JsString) : JsString := rev (trimStart (rev s)).

Definition trim (s : JsString) : JsString := trimEnd (trimStart s).

(** [ToBoolean] on a string: only the empty string is falsy. *)
Definition truthy_string (s : JsString) : bool :=
  match s with [] => false | _ :: _ => true end.

(** [o || d] for [o : string | null] and a string [d]. *)
Definition or_else (o : option JsString) (d : JsString) : JsString :=
  match o with
  | Some s => if truthy_string s then s else d
  | None => d
  end.

(** Numbers are binary64 floats. *)
Definition number : Type := float.

(** [ToBoolean] on a number: [+0], [-0] and [NaN] are falsy. *)
Definition truthy_number (x : number) : bool :=
  negb ((x =? 0)%float || is_nan x).

(** A (small) integer as a number; exact below [2^53]. *)
Definition number_of_Z (z : Z) : number :=
  let a := PrimFloat.of_uint63 (Uint63.of_Z (Z.abs z)) in
  if (z <? 0)%Z then PrimFloat.opp a else a.

(** [Math.round]: not-finite and integral numbers are returned as they are;
    otherwise the closest integer, ties towards [+Infinity], keeping the sign
    of a zero result.  A finite float is [(-1)^s * m * 2^e]; for [e < 0] the
    result is [floor ((2 * (+-m) + 2^-e) / 2^(1 - e))], computed exactly. *)
Definition Math_round (x : number) : number :=
  match Prim2SF x with
  | S754_finite s m e =>
      if (0 <=? e)%Z then x
      else
        let k := (- e)%Z in
        let sm := if s then Z.neg m else Z.pos m in
        let r := ((2 * sm + 2 ^ k) / 2 ^ (k + 1))%Z in
        if (r =? 0)%Z then (if s then (-0)%float else 0%float)
        else number_of_Z r
  | _ => x
  end.

(** Anything that can be thrown and caught ([any] in the source). *)
Inductive Error : Type :=
| AxiosError (message : string) (status : option Z)
| Thrown (message : string).

End Js.

(* ================================================================== *)
(** ** Asynchronous programs                                           *)
(* ================================================================== *)

Module Async.

Section WithEvents.

(** [E X] is an effect that is answered with a value of type [X]. *)
Variable E : Type -> Type.

(** The body of an [async] function: it returns, throws, or performs an
    effect and continues with the answer. *)
Inductive Prog (A : Type) : Type :=
| Ret (a : A)
| Throw (e : Js.Error)
| Vis (X : Type) (ev : E X) (k : X -> Prog A).

Arguments Ret {A} a.
Arguments Throw {A} e.
Arguments Vis {A X} ev k.

Fixpoint bind {A B : Type} (p : Prog A) (f : A -> Prog B) : Prog B :=
  match p with
  | Ret a => f a
  | Throw e => Throw e
  | Vis ev k => Vis ev (fun x => bind (k x) f)
  end.

(** Perform one effect. *)
Definition trigger {X : Type} (ev : E X) : Prog X := Vis ev (fun x => Ret x).

(** [try { p } catch (error) { h error }] *)
Fixpoint try_catch {A : Type} (p : Prog A) (h : Js.Error -> Prog A) : Prog A :=
  match p with
  | Ret a => Ret a
  | Throw e => h e
  | Vis ev k => Vis ev (fun x => try_catch (k x) h)
  end.

(** [try { p } finally { f }]: [f] runs on both exits; the completion of [p]
    is kept unless [f] itself throws. *)
Fixpoint try_finally {A : Type} (p : Prog A) (f : Prog unit) : Prog A :=
  match p with
  | Ret a => bind f (fun _ => Ret a)
  | Throw e => bind f (fun _ => Throw e)
  | Vis ev k => Vis ev (fun x => try_finally (k x) f)
  end.

(** An effect that was performed (its answer is not recorded). *)
Definition Effect : Type := {X : Type & E X}.
Definition obs {X : Type} (ev : E X) : Effect := existT E X ev.

Section Run.

Variable S : Type.

(** Running to completion: the handler answers every effect at once. *)
Variable handle : forall X : Type, E X -> S -> X * S.

Fixpoint run {A : Type} (p : Prog A) (s : S)
  : S * list Effect * (Js.Error + A) :=
  match p with
  | Ret a => (s, [], inr a)
  | Throw e => (s, [], inl e)
  | Vis ev k =>
      let '(x, s1) := handle ev s in
      let '(s2, tr, r) := run (k x) s1 in
      (s2, obs ev :: tr, r)
  end.

(** Running one synchronous stretch: the handler answers the effects that
    complete immediately and declines ([None]) the ones the program has to
    wait for. *)
Variable handle_now : forall X : Type, E X -> S -> option (X * S).

Inductive Suspended (A : Type) : Type :=
| Finished (r : Js.Error + A)
| Awaiting (X : Type) (ev : E X) (k : X -> Prog A).

Arguments Finished {A} r.
Arguments Awaiting {A X} ev k.

Fixpoint run_sync {A : Type} (p : Prog A) (s : S)
  : S * list Effect * Suspended A :=
  match p with
  | Ret a => (s, [], Finished (inr a))
  | Throw e => (s, [], Finished (inl e))
  | Vis ev k =>
      match handle_now ev s with
      | None => (s, [obs ev], Awaiting ev k)
      | Some (x, s1) =>
          let '(s2, tr, r) := run_sync (k x) s1 in
          (s2, obs ev :: tr, r)
      end
  end.

(** Completing a suspended run by the handler that answers every effect. *)
Definition resume {A : Type} (w : S * list Effect * Suspended A)
  : S * list Effect * (Js.Error + A) :=
  match w with
  | (s, tr, Finished r) => (s, tr, r)
  | (s, tr, Awaiting ev k) =>
      let '(x, s1) := handle ev s in
      let '(s2, tr2, r) := run (k x) s1 in
      (s2, tr ++ tr2, r)
  end.

End Run.

End WithEvents.

Arguments Ret {E A} a.
Arguments Throw {E A} e.
Arguments Vis {E A X} ev k.
Arguments Finished {E A} r.
Arguments Awaiting {E A X} ev k.
Arguments obs {E X} ev.
Arguments trigger {E X} ev.

(** Running a program written over the effects [E] inside a program over
    the larger set of effects [F]. *)
Fixpoint translate {E F : Type -> Type} (inj : forall X, E X -> F X)
  {A : Type} (p : Prog E A) : Prog F A :=
  match p with
  | Ret a => Ret a
  | Throw e => Throw e
  | Vis ev k => Vis (inj _ ev) (fun x => translate inj (k x))
  end.

Declare Scope prog_scope.
Delimit Scope prog_scope with prog.
Notation "x <- p ;; q" := (bind p (fun x => q))
  (at level 61, p at next level, right associativity) : prog_scope.
Notation "p ;; q" := (bind p (fun _ => q))
  (at level 61, right associativity) : prog_scope.

End Async.

(* ================================================================== *)
(** ** [frontend/utils/api.ts]                                         *)
(* ================================================================== *)

Module Api.

Import Js Async.
Local Open Scope prog_scope.
Local Open Scope string_scope.

(** [const API_URL = process.env.API_URL || 'http://localhost:8000'] *)
Definition API_URL (process_env_API_URL : option JsString) : JsString :=
  or_else process_env_API_URL (lit "http://localhost:8000").

(** The configuration of the axios instance [api]. *)
Record AxiosConfig : Type := {
  baseURL : JsString;
  headers : list (string * string)
}.

Definition api (process_env_API_URL : option JsString) : AxiosConfig :=
  {| baseURL := API_URL process_env_API_URL;
     headers := [("Content-Type", "application/json")] |}.

(** [interface Lead] *)
Record Lead : Type := {
  id : number;
  name : JsString;
  category : option JsString;
  address : option JsString;
  phone : option JsString;
  website : option JsString;
  has_website : bool;
  source : JsString;
  query : JsString;
  created_at : JsString
}.

(** [interface ScrapeResponse] *)
Record ScrapeResponse : Type := {
  success : bool;
  leads_added : number;
  high_priority : number
}.

(** The values the two calls put into a request. *)
Inductive JsonValue : Type :=
| JString (s : JsString)
| JBoolean (b : bool).

Inductive Method : Type := GET | POST.

(** A request made through [api]: [api.post(url, body)] sends [body] as the
    JSON payload, [api.get(url, { params })] sends [params] in the query
    string.  An object literal is the list of its properties, in order. *)
Record Request : Type := {
  method : Method;
  url : string;
  body : option (list (string * JsonValue));
  params : list (string * JsonValue)
}.

(** What [api.get<T>] and [api.post<T>] resolve to. *)
Record AxiosResponse (T : Type) : Type := {
  data : T;
  status : Z
}.

(** The payload types the front end asks for. *)
Inductive Payload : Type := ScrapeResponseT | LeadsT.

Definition payload (t : Payload) : Type :=
  match t with
  | ScrapeResponseT => ScrapeResponse
  | LeadsT => list Lead
  end.

(** How an awaited request settles: rejected with an error, or fulfilled
    with a response. *)
Definition Settled (t : Payload) : Type :=
  (Error + AxiosResponse (payload t))%type.

(** The effects of this file. *)
Inductive apiE : Type -> Type :=
| Axios (t : Payload) (req : Request) : apiE (Settled t)
| ConsoleError (label : string) (e : Error) : apiE unit.

(** [api.post<T>(url, body)] and [api.get<T>(url, { params })], awaited: a
    rejected promise throws at the [await]. *)
Definition await_request (t : Payload) (req : Request)
  : Prog apiE (AxiosResponse (payload t)) :=
  r <- trigger (Axios t req) ;;
  match r with
  | inl e => Throw e
  | inr response => Ret response
  end.

Definition api_post (t : Payload) (path : string) (b : list (string * JsonValue))
  : Prog apiE (AxiosResponse (payload t)) :=
  await_request t {| method := POST; url := path; body := Some b; params := [] |}.

Definition api_get (t : Payload) (path : string) (ps : list (string * JsonValue))
  : Prog apiE (AxiosResponse (payload t)) :=
  await_request t {| method := GET; url := path; body := None; params := ps |}.

(** [export const scrapeLeads = async (query: string): Promise<ScrapeResponse>] *)
Definition scrapeLeads (query : JsString) : Prog apiE ScrapeResponse :=
  try_catch
    (response <- api_post ScrapeResponseT "/scrape-leads" [("query", JString query)] ;;
     Ret (data response))
    (fun error =>
       trigger (ConsoleError "Error scraping leads:" error) ;;
       Throw error).

(** [export const getLeads = async (highPriorityOnly = false): Promise<Lead[]>];
    [None] is the omitted argument. *)
Definition getLeads (arg : option bool) : Prog apiE (list Lead) :=
  let highPriorityOnly := match arg with Some b => b | None => false end in
  try_catch
    (response <- api_get LeadsT "/leads"
                   [("high_priority_only", JBoolean highPriorityOnly)] ;;
     Ret (data response))
    (fun error =>
       trigger (ConsoleError "Error fetching leads:" error) ;;
       Throw error).

(** The network as the client sees it: every request settles one way or the
    other.  The console keeps no state. *)
Definition Network : Type := forall t : Payload, Request -> Settled t.

Definition handle (net : Network) (X : Type) (ev : apiE X) (s : unit)
  : X * unit :=
  match ev in apiE X return X * unit with
  | Axios t req => (net t req, s)
  | ConsoleError _ _ => (tt, s)
  end.

(** A call run to completion: the effects performed and the completion
    ([inl] a rejection, [inr] the value the promise resolves to). *)
Definition call {A : Type} (net : Network) (p : Prog apiE A)
  : list (Effect apiE) * (Error + A) :=
  let '(_, tr, r) := run (handle net) p tt in (tr, r).

(** The fields of a [Lead], one component per property. *)
Definition LeadShape : Type :=
  (number * JsString * option JsString * option JsString * option JsString
   * option JsString * bool * JsString * JsString * JsString)%type.

Definition lead_fields (l : Lead) : LeadShape :=
  (id l, name l, category l, address l, phone l, website l, has_website l,
   source l, query l, created_at l).

Definition lead_of_fields (f : LeadShape) : Lead :=
  let '(i, n, c, a, p, w, h, s, q, t) := f in
  {| id := i; name := n; category := c; address := a; phone := p;
     website := w; has_website := h; source := s; query := q;
     created_at := t |}.

End Api.

(* ================================================================== *)
(** ** [components/LeadsTable]                                         *)
(* ================================================================== *)

Module Table.

Import Js Api.
Local Open Scope string_scope.

(** The badge of the Priority column. *)
Inductive Priority : Type := High | Low.

(** The Website column: a link or a placeholder. *)
Inductive WebsiteCell : Type :=
| VisitSite (href : JsString)
| NoWebsite.

(** One [<tr>] of the table body. *)
Record Row : Type := {
  key : number;
  business : JsString;
  business_address : JsString;
  category_cell : JsString;
  contact_cell : JsString;
  website_cell : WebsiteCell;
  priority_cell : Priority
}.

Definition row (lead : Lead) : Row :=
  {| key := id lead;
     business := name lead;
     business_address := or_else (address lead) (lit "N/A");
     category_cell := or_else (category lead) (lit "Unknown");
     contact_cell := or_else (phone lead) (lit "No phone listed");
     website_cell :=
       match website lead with
       | Some w => if truthy_string w then VisitSite w else NoWebsite
       | None => NoWebsite
       end;
     priority_cell := if negb (has_website lead) then High else Low |}.

(** What the component renders. *)
Inductive TableView : Type :=
| Spinner
| NoLeadsFound
| TableBody (rows : list Row).

(** [const LeadsTable: React.FC<LeadsTableProps> = ({ leads, loading })] *)
Definition LeadsTable (leads : list Lead) (loading : bool) : TableView :=
  if loading then Spinner
  else if (List.length leads =? 0)%nat then NoLeadsFound
  else TableBody (map row leads).

End Table.

(* ================================================================== *)
(** ** [components/StatsSummary]                                       *)
(* ================================================================== *)

Module Stats.

Import Js Api.
Local Open Scope string_scope.
Local Open Scope float_scope.

(** The text of the conversion card: the string literal ['0%'], or the
    template literal [`${n}%`] for the number [n]. *)
Inductive Text : Type :=
| Literal (s : string)
| Percent (n : number).

(** A division that was evaluated: dividend and divisor. *)
Definition Division : Type := (number * number)%type.

(** The conditional expression of the conversion card, with the divisions
    its evaluation performs:
    [stats.leads_added
       ? `${Math.round((stats.high_priority / stats.leads_added) * 100)}%`
       : '0%'] *)
Definition conversion (stats : ScrapeResponse) : list Division * Text :=
  if truthy_number (leads_added stats)
  then
    let ratio := high_priority stats / leads_added stats in
    ([(high_priority stats, leads_added stats)],
     Percent (Math_round (ratio * 100)))
  else ([], Literal "0%").

(** What the component renders for a non-null [stats]. *)
Record StatsView : Type := {
  total_leads_found : number;
  high_priority_leads : number;
  conversion_potential : Text
}.

(** [const StatsSummary: React.FC<StatsSummaryProps> = ({ stats })];
    [None] is [null], as an argument and as the rendered result. *)
Definition StatsSummary (stats : option ScrapeResponse) : option StatsView :=
  match stats with
  | None => None
  | Some stats =>
      Some {| total_leads_found := leads_added stats;
              high_priority_leads := high_priority stats;
              conversion_potential := snd (conversion stats) |}
  end.

End Stats.

(* ================================================================== *)
(** ** [frontend/components/ScrapeForm.tsx]                            *)
(* ================================================================== *)

Module Form.

Import Js Async Api.
Local Open Scope prog_scope.
Local Open Scope string_scope.

(** [interface ScrapeFormProps]: a callback either returns ([None]) or
    throws ([Some e]); what it does to its owner is not the form's
    business. *)
Record Props : Type := {
  onSuccess : ScrapeResponse -> option Error;
  onError : Error -> option Error
}.

(** The two [useState] cells. *)
Record State : Type := {
  query : JsString;
  isLoading : bool
}.

Definition initial : State := {| query := empty; isLoading := false |}.

(** The effects of the component: those of the API call it makes, the DOM
    event, [alert], the two state setters and the two callbacks. *)
Inductive formE : Type -> Type :=
| Call (X : Type) (ev : apiE X) : formE X
| PreventDefault : formE unit
| Alert (msg : string) : formE unit
| SetQuery (v : JsString) : formE unit
| SetIsLoading (b : bool) : formE unit
| OnSuccess (response : ScrapeResponse) : formE (option Error)
| OnError (error : Error) : formE (option Error).

Arguments Call {X} ev.

(** Calling a callback: a throw inside it is a throw at the call. *)
Definition invoke (ev : formE (option Error)) : Prog formE unit :=
  thrown <- trigger ev ;;
  match thrown with
  | Some e => Throw e
  | None => Ret tt
  end.

(** [const handleSubmit = async (e: React.FormEvent) => { ... }], closed over
    the [query] of the render that created it. *)
Definition handleSubmit (query : JsString) : Prog formE unit :=
  trigger PreventDefault ;;
  if negb (truthy_string (trim query))
  then trigger (Alert "Please enter a search query")
  else
    trigger (SetIsLoading true) ;;
    try_finally
      (try_catch
         (response <- translate (@Call) (scrapeLeads query) ;;
          trigger (SetQuery empty) ;;
          invoke (OnSuccess response))
         (fun error => invoke (OnError error)))
      (trigger (SetIsLoading false)).

(** [onChange={(e) => setQuery(e.target.value)}] *)
Definition handleChange (value : JsString) : Prog formE unit :=
  trigger (SetQuery value).

(** What the component renders: the text input, the submit button, and the
    handlers created by this render. *)
Record FormView : Type := {
  input_value : JsString;
  input_disabled : bool;
  input_required : bool;
  button_disabled : bool;
  button_label : string;
  onChange : JsString -> Prog formE unit;
  onSubmit : Prog formE unit
}.

(** [const ScrapeForm: React.FC<ScrapeFormProps> = ({ onSuccess, onError })] *)
Definition ScrapeForm (st : State) : FormView :=
  {| input_value := query st;
     input_disabled := isLoading st;
     input_required := true;
     button_disabled := isLoading st;
     button_label := if isLoading st then "Scanning..." else "Start Scan";
     onChange := handleChange;
     onSubmit := handleSubmit (query st) |}.

(** The effects that complete at once; the request to the network is the
    one the handler waits for. *)
Definition handle_now (props : Props) (X : Type) (ev : formE X) (st : State)
  : option (X * State) :=
  match ev in formE X return option (X * State) with
  | Call ev' =>
      match ev' in apiE X return option (X * State) with
      | Axios _ _ => None
      | ConsoleError _ _ => Some (tt, st)
      end
  | PreventDefault => Some (tt, st)
  | Alert _ => Some (tt, st)
  | SetQuery v => Some (tt, {| query := v; isLoading := isLoading st |})
  | SetIsLoading b => Some (tt, {| query := query st; isLoading := b |})
  | OnSuccess response => Some (onSuccess props response, st)
  | OnError error => Some (onError props error, st)
  end.

(** The same with the network answering at once. *)
Definition handle (props : Props) (net : Network) (X : Type) (ev : formE X)
  (st : State) : X * State :=
  match ev in formE X return X * State with
  | Call ev' =>
      match ev' in apiE X return X * State with
      | Axios t req => (net t req, st)
      | ConsoleError _ _ => (tt, st)
      end
  | PreventDefault => (tt, st)
  | Alert _ => (tt, st)
  | SetQuery v => (tt, {| query := v; isLoading := isLoading st |})
  | SetIsLoading b => (tt, {| query := query st; isLoading := b |})
  | OnSuccess response => (onSuccess props response, st)
  | OnError error => (onError props error, st)
  end.

(** A submission run to completion. *)
Definition submit (props : Props) (net : Network) (st : State)
  : State * list (Effect formE) * (Error + unit) :=
  run (handle props net) (onSubmit (ScrapeForm st)) st.

(** The request of a scrape, as an effect of the form. *)
Definition scrape_request (query : JsString) : Effect formE :=
  obs (Call (Axios ScrapeResponseT
               {| method := POST; url := "/scrape-leads";
                  body := Some [("query", JString query)]; params := [] |})).

(** Whether an effect is a request to the network. *)
Definition is_request (ef : Effect formE) : bool :=
  match projT2 ef with
  | Call (Axios _ _) => true
  | _ => false
  end.

(** *** The mounted component

    A mounted form: its state, the handlers suspended at an [await] (each
    with the effect it waits for), and the effects performed so far. *)
Definition Pending : Type := {X : Type & (formE X * (X -> Prog formE unit))%type}.

Record Instance : Type := {
  state : State;
  inflight : list Pending;
  log : list (Effect formE)
}.

Definition mount : Instance :=
  {| state := initial; inflight := []; log := [] |}.

(** Run a handler until it finishes or suspends. *)
Definition launch (props : Props) (s : Instance) (p : Prog formE unit)
  : Instance :=
  let '(st, tr, w) := run_sync (handle_now props) p (state s) in
  {| state := st;
     inflight :=
       match w with
       | Finished _ => inflight s
       | Awaiting ev k => inflight s ++ [existT _ _ (ev, k)]
       end;
     log := log s ++ tr |}.

Definition remove_nth {A : Type} (n : nat) (l : list A) : list A :=
  firstn n l ++ skipn (S n) l.

(** What can happen to a mounted form: the user edits the input, the user
    submits the form (the button, or Enter in the input), or the network
    settles the [n]-th pending request. *)
Inductive Action : Type :=
| Edit (value : JsString)
| Submit
| Settle (n : nat) (net : Network).

(** One step.  A disabled control dispatches no event: an edit needs the
    input enabled, a submission needs the submit button enabled.  (The
    browser's own check of the [required] input, which stops a submission
    of the empty query before the handler is called, is left out: here the
    handler runs and rejects that query itself.) *)
Definition step (props : Props) (s : Instance) (a : Action) : option Instance :=
  let view := ScrapeForm (state s) in
  match a with
  | Edit value =>
      if input_disabled view then None
      else Some (launch props s (onChange view value))
  | Submit =>
      if button_disabled view then None
      else Some (launch props s (onSubmit view))
  | Settle n net =>
      match nth_error (inflight s) n with
      | None => None
      | Some (existT _ X (ev, k)) =>
          let answer := fst (handle props net ev (state s)) in
          Some (launch props
                  {| state := state s;
                     inflight := remove_nth n (inflight s);
                     log := log s |}
                  (k answer))
      end
  end.

(** An action that cannot happen leaves the form as it is. *)
Definition act (props : Props) (s : Instance) (a : Action) : Instance :=
  match step props s a with
  | Some s' => s'
  | None => s
  end.

Definition after (props : Props) (actions : list Action) : Instance :=
  fold_left (act props) actions mount.

(** A pending handler that, however its request settles, runs to its end
    without waiting again and leaves the loading flag off. *)
Definition finishes_idle (props : Props) (p : Pending) : Prop :=
  forall (x : projT1 p) (st : State),
    exists st' tr r,
      run_sync (handle_now props) (snd (projT2 p) x) st = (st', tr, Finished r)
      /\ isLoading st' = false.

(** The loading flag tells whether a request is in flight: off with nothing
    pending, or on with exactly one pending handler. *)
Definition consistent (props : Props) (s : Instance) : Prop :=
  (isLoading (state s) = false /\ inflight s = [])
  \/ (isLoading (state s) = true
      /\ exists p, inflight s = [p] /\ finishes_idle props p).

End Form.

(* ================================================================== *)
(** ** [next.config.js]                                                *)
(* ================================================================== *)

Module NextConfig.

Import Js.

(** [env: { API_URL: process.env.API_URL || 'http://localhost:8000' }]: the
    value the build gives to [process.env.API_URL] in the client code. *)
Definition env_API_URL (process_env_API_URL : option JsString) : JsString :=
  or_else process_env_API_URL (lit "http://localhost:8000").

Record Rewrite : Type := {
  source : JsString;
  destination : JsString
}.

(** [async rewrites()] *)
Definition rewrites (process_env_API_URL : option JsString) : list Rewrite :=
  [{| source := lit "/api/:path*";
      destination :=
        or_else process_env_API_URL (lit "http://localhost:8000")
        ++ lit "/:path*" |}].

End NextConfig.

(* ================================================================== *)
(** ** [frontend/pages/index.tsx]                                      *)
(* ================================================================== *)

Module Page.

Import Js Async Api.
Local Open Scope prog_scope.
Local Open Scope string_scope.

(** The five [useState] cells of [HomePage]. *)
Record State : Type := {
  leads : list Lead;
  loading : bool;
  scrapeStats : option ScrapeResponse;
  error : option JsString;
  highPriorityOnly : bool
}.

Definition initial : State :=
  {| leads := []; loading := false; scrapeStats := None; error := None;
     highPriorityOnly := false |}.

Definition set_leads (v : list Lead) (st : State) : State :=
  {| leads := v; loading := loading st; scrapeStats := scrapeStats st;
     error := error st; highPriorityOnly := highPriorityOnly st |}.

Definition set_loading (b : bool) (st : State) : State :=
  {| leads := leads st; loading := b; scrapeStats := scrapeStats st;
     error := error st; highPriorityOnly := highPriorityOnly st |}.

Definition set_scrapeStats (r : ScrapeResponse) (st : State) : State :=
  {| leads := leads st; loading := loading st; scrapeStats := Some r;
     error := error st; highPriorityOnly := highPriorityOnly st |}.

Definition set_error (message : option JsString) (st : State) : State :=
  {| leads := leads st; loading := loading st; scrapeStats := scrapeStats st;
     error := message; highPriorityOnly := highPriorityOnly st |}.

Definition set_highPriorityOnly (b : bool) (st : State) : State :=
  {| leads := leads st; loading := loading st; scrapeStats := scrapeStats st;
     error := error st; highPriorityOnly := b |}.

(** The effects of [loadLeads]: those of [getLeads], [console.error] and
    three state setters. *)
Inductive loadE : Type -> Type :=
| Api (X : Type) (ev : apiE X) : loadE X
| Console (label : string) (e : Error) : loadE unit
| SetLeads (value : list Lead) : loadE unit
| SetLoading (b : bool) : loadE unit
| SetError (message : option JsString) : loadE unit.

Arguments Api {X} ev.

(** [const loadLeads = async () => { ... }], closed over the
    [highPriorityOnly] of the render that created it. *)
Definition loadLeads (highPriorityOnly : bool) : Prog loadE unit :=
  trigger (SetLoading true) ;;
  trigger (SetError None) ;;
  try_finally
    (try_catch
       (value <- translate (@Api) (getLeads (Some highPriorityOnly)) ;;
        trigger (SetLeads value))
       (fun err =>
          trigger (Console "Error loading leads:" err) ;;
          trigger (SetError
                     (Some (lit "Failed to load leads. Please try again later.")))))
    (trigger (SetLoading false)).

(** The effects of the two callbacks given to the form: those above, one
    more setter, and the call [loadLeads()] that is not awaited. *)
Inductive callbackE : Type -> Type :=
| Inner (X : Type) (ev : loadE X) : callbackE X
| SetScrapeStats (response : ScrapeResponse) : callbackE unit
| LoadLeads (highPriorityOnly : bool) : callbackE unit.

Arguments Inner {X} ev.

(** [const handleScrapeSuccess = (response: ScrapeResponse) => { ... }],
    with the [loadLeads] of its own render. *)
Definition handleScrapeSuccess (highPriorityOnly : bool)
  (response : ScrapeResponse) : Prog callbackE unit :=
  trigger (SetScrapeStats response) ;;
  trigger (LoadLeads highPriorityOnly).

(** [const handleScrapeError = (err: any) => { ... }] *)
Definition handleScrapeError (err : Error) : Prog callbackE unit :=
  trigger (Inner (Console "Scrape error:" err)) ;;
  trigger (Inner (SetError
                    (Some (lit "An error occurred while scraping. Please try again later.")))).

(** What the page renders below the header: the stats section (present for
    a non-null [scrapeStats]; inside it, what [StatsSummary] renders), the
    error banner, the filter checkbox and the leads table. *)
Record PageView : Type := {
  stats_section : option (option Stats.StatsView);
  error_banner : option JsString;
  filter_checked : bool;
  leads_table : Table.TableView
}.

(** [const HomePage = () => { ... }] *)
Definition HomePage (st : State) : PageView :=
  {| stats_section :=
       match scrapeStats st with
       | Some _ => Some (Stats.StatsSummary (scrapeStats st))
       | None => None
       end;
     error_banner :=
       match error st with
       | Some message => if truthy_string message then Some message else None
       | None => None
       end;
     filter_checked := highPriorityOnly st;
     leads_table := Table.LeadsTable (leads st) (loading st) |}.

(** *** [loadLeads] on its own *)

(** The state setters and the console complete at once; the request is
    waited for. *)
Definition load_now (X : Type) (ev : loadE X) (st : State)
  : option (X * State) :=
  match ev in loadE X return option (X * State) with
  | Api ev' =>
      match ev' in apiE X return option (X * State) with
      | Axios _ _ => None
      | ConsoleError _ _ => Some (tt, st)
      end
  | Console _ _ => Some (tt, st)
  | SetLeads v => Some (tt, set_leads v st)
  | SetLoading b => Some (tt, set_loading b st)
  | SetError message => Some (tt, set_error message st)
  end.

(** The same with the network answering at once. *)
Definition load_handle (net : Network) (X : Type) (ev : loadE X) (st : State)
  : X * State :=
  match ev in loadE X return X * State with
  | Api ev' =>
      match ev' in apiE X return X * State with
      | Axios t req => (net t req, st)
      | ConsoleError _ _ => (tt, st)
      end
  | Console _ _ => (tt, st)
  | SetLeads v => (tt, set_leads v st)
  | SetLoading b => (tt, set_loading b st)
  | SetError message => (tt, set_error message st)
  end.

(** One load run to completion. *)
Definition load (net : Network) (st : State)
  : State * list (Effect loadE) * (Error + unit) :=
  run (load_handle net) (loadLeads (highPriorityOnly st)) st.

(** Whether an effect is a request to the network. *)
Definition is_request (ef : Effect loadE) : bool :=
  match projT2 ef with
  | Api (Axios _ _) => true
  | _ => false
  end.

(** *** The mounted page

    The page with its form: the state of both, the handlers suspended at an
    [await] (a submission of the form together with the [highPriorityOnly]
    its callbacks were created with, and the loads), and the requests sent
    so far. *)
Definition LoadPending : Type :=
  {X : Type & (loadE X * (X -> Prog loadE unit))%type}.

Definition ScrapePending : Type := (bool * Form.Pending)%type.

Record Mounted : Type := {
  state : State;
  form : Form.State;
  scrapes : list ScrapePending;
  loads : list LoadPending;
  sent : list Request
}.

Definition with_state (st : State) (m : Mounted) : Mounted :=
  {| state := st; form := form m; scrapes := scrapes m; loads := loads m;
     sent := sent m |}.

Definition with_form (f : Form.State) (m : Mounted) : Mounted :=
  {| state := state m; form := f; scrapes := scrapes m; loads := loads m;
     sent := sent m |}.

(** The request an awaited effect carries. *)
Definition load_request (X : Type) (ev : loadE X) : list Request :=
  match ev with
  | Api (Axios _ req) => [req]
  | _ => []
  end.

Definition form_request (X : Type) (ev : Form.formE X) : list Request :=
  match ev with
  | Form.Call (Axios _ req) => [req]
  | _ => []
  end.

(** How the network answers an awaited effect. *)
Definition load_answer (net : Network) (X : Type) (ev : loadE X) : X :=
  match ev in loadE X return X with
  | Api ev' =>
      match ev' in apiE X return X with
      | Axios t req => net t req
      | ConsoleError _ _ => tt
      end
  | Console _ _ => tt
  | SetLeads _ => tt
  | SetLoading _ => tt
  | SetError _ => tt
  end.

Definition form_answer (net : Network) (X : Type) (ev : Form.formE X) : X :=
  match ev in Form.formE X return X with
  | Form.Call ev' =>
      match ev' in apiE X return X with
      | Axios t req => net t req
      | ConsoleError _ _ => tt
      end
  | Form.PreventDefault => tt
  | Form.Alert _ => tt
  | Form.SetQuery _ => tt
  | Form.SetIsLoading _ => tt
  | Form.OnSuccess _ => None
  | Form.OnError _ => None
  end.

(** Run (the rest of) a load until it finishes or waits. *)
Definition continue_load (p : Prog loadE unit) (m : Mounted) : Mounted :=
  let '(st, _, w) := run_sync load_now p (state m) in
  match w with
  | Finished _ => with_state st m
  | Awaiting ev k =>
      {| state := st; form := form m; scrapes := scrapes m;
         loads := loads m ++ [existT _ _ (ev, k)];
         sent := sent m ++ load_request ev |}
  end.

(** [loadLeads()], called and not awaited: its first stretch runs inside the
    caller, the rest when the request settles. *)
Definition start_load (highPriorityOnly : bool) (m : Mounted) : Mounted :=
  continue_load (loadLeads highPriorityOnly) m.

(** The effects of a callback, all of which complete at once. *)
Definition callback_now (X : Type) (ev : callbackE X) (m : Mounted)
  : option (X * Mounted) :=
  match ev in callbackE X return option (X * Mounted) with
  | Inner ev' =>
      match load_now ev' (state m) with
      | Some (x, st) => Some (x, with_state st m)
      | None => None
      end
  | SetScrapeStats response =>
      Some (tt, with_state (set_scrapeStats response (state m)) m)
  | LoadLeads b => Some (tt, start_load b m)
  end.

(** A callback called by the form: what it throws, if it throws. *)
Definition call_back (p : Prog callbackE unit) (m : Mounted)
  : option Error * Mounted :=
  let '(m', _, w) := run_sync callback_now p m in
  (match w with Finished (inl e) => Some e | _ => None end, m').

(** The effects of the form inside the page: [onSuccess] and [onError] are
    the callbacks of the render the handler comes from, which saw
    [highPriorityOnly = b]. *)
Definition form_now (b : bool) (X : Type) (ev : Form.formE X) (m : Mounted)
  : option (X * Mounted) :=
  match ev in Form.formE X return option (X * Mounted) with
  | Form.Call ev' =>
      match ev' in apiE X return option (X * Mounted) with
      | Axios _ _ => None
      | ConsoleError _ _ => Some (tt, m)
      end
  | Form.PreventDefault => Some (tt, m)
  | Form.Alert _ => Some (tt, m)
  | Form.SetQuery v =>
      Some (tt, with_form {| Form.query := v;
                             Form.isLoading := Form.isLoading (form m) |} m)
  | Form.SetIsLoading l =>
      Some (tt, with_form {| Form.query := Form.query (form m);
                             Form.isLoading := l |} m)
  | Form.OnSuccess response => Some (call_back (handleScrapeSuccess b response) m)
  | Form.OnError e => Some (call_back (handleScrapeError e) m)
  end.

(** Run (the rest of) a handler of the form until it finishes or waits. *)
Definition continue_form (b : bool) (p : Prog Form.formE unit) (m : Mounted)
  : Mounted :=
  let '(m', _, w) := run_sync (form_now b) p m in
  match w with
  | Finished _ => m'
  | Awaiting ev k =>
      {| state := state m'; form := form m';
         scrapes := scrapes m' ++ [(b, existT _ _ (ev, k))];
         loads := loads m';
         sent := sent m' ++ form_request ev |}
  end.

(** The first render, followed by the effect [useEffect(() => {
    loadLeads(); }, [highPriorityOnly])], which runs once (as in a
    production build; the second run of effects that strict mode adds in
    development is left out). *)
Definition mount : Mounted :=
  start_load false
    {| state := initial; form := Form.initial; scrapes := []; loads := [];
       sent := [] |}.

(** What can happen to a mounted page: the user edits the query, submits
    the form or flips the filter checkbox, or the network settles the
    [n]-th pending scrape or the [n]-th pending load. *)
Inductive Action : Type :=
| Edit (value : JsString)
| Submit
| ToggleFilter
| ScrapeSettles (n : nat) (net : Network)
| LoadSettles (n : nat) (net : Network).

(** One step.  The controls of the form are disabled as the form renders
    them (the browser's check of the [required] input is left out, as for
    the form alone); the checkbox is always enabled, and flipping it
    re-renders the page with the new [highPriorityOnly], after which the
    effect calls the new [loadLeads]. *)
Definition step (m : Mounted) (a : Action) : option Mounted :=
  let view := Form.ScrapeForm (form m) in
  let b := highPriorityOnly (state m) in
  match a with
  | Edit value =>
      if Form.input_disabled view then None
      else Some (continue_form b (Form.onChange view value) m)
  | Submit =>
      if Form.button_disabled view then None
      else Some (continue_form b (Form.onSubmit view) m)
  | ToggleFilter =>
      Some (start_load (negb b)
              (with_state (set_highPriorityOnly (negb b) (state m)) m))
  | ScrapeSettles n net =>
      match nth_error (scrapes m) n with
      | None => None
      | Some (b', existT _ X (ev, k)) =>
          Some (continue_form b' (k (form_answer net ev))
                  {| state := state m; form := form m;
                     scrapes := Form.remove_nth n (scrapes m);
                     loads := loads m; sent := sent m |})
      end
  | LoadSettles n net =>
      match nth_error (loads m) n with
      | None => None
      | Some (existT _ X (ev, k)) =>
          Some (continue_load (k (load_answer net ev))
                  {| state := state m; form := form m;
                     scrapes := scrapes m;
                     loads := Form.remove_nth n (loads m);
                     sent := sent m |})
      end
  end.

(** An action that cannot happen leaves the page as it is. *)
Definition act (m : Mounted) (a : Action) : Mounted :=
  match step m a with
  | Some m' => m'
  | None => m
  end.

Definition after (actions : list Action) : Mounted :=
  fold_left act actions mount.

(** The two requests the page sends. *)
Definition scrape_request (query : JsString) : Request :=
  {| method := POST; url := "/scrape-leads";
     body := Some [("query", JString query)]; params := [] |}.

Definition leads_request (highPriorityOnly : bool) : Request :=
  {| method := GET; url := "/leads"; body := None;
     params := [("high_priority_only", JBoolean highPriorityOnly)] |}.

End Page.

(* ================================================================== *)
(** ** Counting effects, and what pending handlers do                  *)
(* ================================================================== *)

Module Tracking.

Import Js Async Api.
Local Open Scope string_scope.

(** How many elements of a list pass a test. *)
Definition count {A : Type} (f : A -> bool) (l : list A) : nat :=
  List.length (filter f l).

(** The effects of [api.ts]: requests and console errors. *)
Definition is_axios (ef : Effect apiE) : bool :=
  match projT2 ef with
  | Axios _ _ => true
  | ConsoleError _ _ => false
  end.

Definition is_console_error (ef : Effect apiE) : bool :=
  match projT2 ef with
  | Axios _ _ => false
  | ConsoleError _ _ => true
  end.

(** The loading flag of the form turned on, and turned off. *)
Definition is_loading_on (ef : Effect Form.formE) : bool :=
  match projT2 ef with
  | Form.SetIsLoading true => true
  | _ => false
  end.

Definition is_loading_off (ef : Effect Form.formE) : bool :=
  match projT2 ef with
  | Form.SetIsLoading false => true
  | _ => false
  end.

(** The request a pending handler of the form waits for. *)
Definition pending_request (p : Form.Pending) : option Request :=
  match fst (projT2 p) with
  | Form.Call (Axios _ req) => Some req
  | _ => None
  end.

(** A submit event that reaches the [<form onSubmit={handleSubmit}>] by
    another way than the controls (a script, a test driver): the handler of
    the current render runs, whatever the controls show. *)
Definition submit_event (props : Form.Props) (s : Form.Instance)
  : Form.Instance :=
  Form.launch props s (Form.onSubmit (Form.ScrapeForm (Form.state s))).

(** The request of a scrape. *)
Definition scrape (query : JsString) : Request :=
  {| method := POST; url := "/scrape-leads";
     body := Some [("query", JString query)]; params := [] |}.

(** A pending handler that is the rest of a submission of [q]: it waits for
    the scrape of [q], and once that settles it runs to its end, sending
    nothing, turning the loading flag off once, and leaving the query as it
    is after a rejection and empty after a fulfilment. *)
Definition rest_of_submit (props : Form.Props) (q : JsString)
  (p : Form.Pending) : Prop :=
  exists k : Settled ScrapeResponseT -> Prog Form.formE unit,
    p = existT _ _ (Form.Call (Axios ScrapeResponseT (scrape q)), k)
    /\ forall (x : Settled ScrapeResponseT) (st : Form.State),
         exists tr r,
           run_sync (Form.handle_now props) (k x) st
           = ({| Form.query := match x with
                               | inl _ => Form.query st
                               | inr _ => empty
                               end;
                 Form.isLoading := false |}, tr, Finished r)
           /\ count Form.is_request tr = 0%nat
           /\ count is_loading_on tr = 0%nat
           /\ count is_loading_off tr = 1%nat.

(** The books of a mounted form: the loading flag was turned on once per
    request sent and off once per request settled, and the one pending
    handler, if any, is the rest of the submission of the query shown. *)
Definition tracked (props : Form.Props) (s : Form.Instance) : Prop :=
  count is_loading_on (Form.log s) = count Form.is_request (Form.log s)
  /\ count Form.is_request (Form.log s)
     = (count is_loading_off (Form.log s) + List.length (Form.inflight s))%nat
  /\ ((Form.isLoading (Form.state s) = false /\ Form.inflight s = [])
      \/ (Form.isLoading (Form.state s) = true
          /\ exists p, Form.inflight s = [p]
                       /\ rest_of_submit props (Form.query (Form.state s)) p)).

End Tracking.

(* ================================================================== *)
(** ** What the pending handlers of the page do                        *)
(* ================================================================== *)

Module PageTracking.

Import Js Async Api Page.
Local Open Scope string_scope.

(** The two messages of the error banner. *)
Definition load_failed : JsString :=
  lit "Failed to load leads. Please try again later.".

Definition scrape_failed : JsString :=
  lit "An error occurred while scraping. Please try again later.".

(** A pending handler that is the rest of a load made with filter [b]: it
    waits for GET /leads with [high_priority_only = b]; on a fulfilment it
    stores the leads, on a rejection it sets the error message; either way
    it turns [loading] off and is done. *)
Definition rest_of_load (b : bool) (p : LoadPending) : Prop :=
  exists k : Settled LeadsT -> Prog loadE unit,
    p = existT _ _ (Api (Axios LeadsT (leads_request b)), k)
    /\ forall (x : Settled LeadsT) (st : State),
         exists tr r,
           run_sync load_now (k x) st
           = (set_loading false
                match x with
                | inl _ => set_error (Some load_failed) st
                | inr response => set_leads (data response) st
                end,
              tr, Finished r).

(** A pending handler that is the rest of a submission of [q] made when the
    filter was [b]: it waits for the scrape of [q]; on a rejection it sets
    the error message and gives the form back with its query; on a
    fulfilment it empties the query, stores the stats, starts a load with
    filter [b] and gives the form back. *)
Definition rest_of_scrape (b : bool) (q : JsString) (sp : ScrapePending)
  : Prop :=
  exists k : Settled ScrapeResponseT -> Prog Form.formE unit,
    sp = (b, existT _ _ (Form.Call (Axios ScrapeResponseT (scrape_request q)), k))
    /\ forall (x : Settled ScrapeResponseT) (m : Mounted),
         continue_form b (k x) m
         = match x with
           | inl _ =>
               with_form {| Form.query := Form.query (form m);
                            Form.isLoading := false |}
                 (with_state (set_error (Some scrape_failed) (state m)) m)
           | inr response =>
               with_form {| Form.query := empty; Form.isLoading := false |}
                 (start_load b
                    (with_state (set_scrapeStats (data response) (state m)) m))
           end.

(** Nothing is in flight and the form is enabled. *)
Definition quiescent (m : Mounted) : Prop :=
  scrapes m = [] /\ loads m = [] /\ Form.isLoading (form m) = false.

(** What holds of a mounted page at all times: every pending load is the
    rest of a load; [loading] is on only while a load is pending; the form
    is loading exactly while its one submission is pending; and the error
    is null or one of the two messages. *)
Definition sound (m : Mounted) : Prop :=
  Forall (fun p => exists b, rest_of_load b p) (loads m)
  /\ (loading (state m) = true -> loads m <> [])
  /\ ((Form.isLoading (form m) = false /\ scrapes m = [])
      \/ (Form.isLoading (form m) = true
          /\ exists b sp, scrapes m = [sp]
                          /\ rest_of_scrape b (Form.query (form m)) sp))
  /\ (error (state m) = None
      \/ error (state m) = Some load_failed
      \/ error (state m) = Some scrape_failed).

(** Whether the page shows the stats section. *)
Definition stats_shown (m : Mounted) : bool :=
  match stats_section (HomePage (state m)) with
  | Some _ => true
  | None => false
  end.

End PageTracking.

(* ================================================================== *)
(** ** Sample data                                                     *)
(* ================================================================== *)

Module Samples.

Import Js Api.
Local Open Scope string_scope.
Local Open Scope float_scope.

(** A business without a website and one with a website. *)
Definition acme : Lead :=
  {| id := 1;
     name := lit "Acme Plumbing";
     category := Some (lit "Plumber");
     address := None;
     phone := Some (lit "0161 496 0000");
     website := None;
     has_website := false;
     source := lit "google_maps";
     query := lit "plumbers in Manchester";
     created_at := lit "2024-05-01T09:30:00" |}.

Definition bolt : Lead :=
  {| id := 2;
     name := lit "Bolt Heating";
     category := None;
     address := Some (lit "2 Canal Street");
     phone := None;
     website := Some (lit "https://bolt.example");
     has_website := true;
     source := lit "google_maps";
     query := lit "plumbers in Manchester";
     created_at := lit "2024-05-01T09:30:01" |}.

(** Three leads added, two of them without a website. *)
Definition three_of_which_two : ScrapeResponse :=
  {| success := true; leads_added := 3; high_priority := 2 |}.

(** A response whose count is negative: a [number] all the same. *)
Definition negative_count : ScrapeResponse :=
  {| success := true; leads_added := -2; high_priority := 1 |}.

Definition network_error : Error := AxiosError "Network Error" None.

(** A network on which every request is rejected. *)
Definition offline : Network := fun _ _ => inl network_error.

(** A network on which every request is fulfilled. *)
Definition online : Network :=
  fun t =>
    match t return Request -> Settled t with
    | ScrapeResponseT =>
        fun _ => inr {| data := three_of_which_two; status := 200 |}
    | LeadsT => fun _ => inr {| data := [acme; bolt]; status := 200 |}
    end.

(** A network that answers with no leads at all. *)
Definition online_empty : Network :=
  fun t =>
    match t return Request -> Settled t with
    | ScrapeResponseT =>
        fun _ =>
          inr {| data := {| success := true; leads_added := 0;
                            high_priority := 0 |};
                 status := 200 |}
    | LeadsT => fun _ => inr {| data := []; status := 200 |}
    end.

(** Callbacks that return. *)
Definition quiet : Form.Props :=
  {| Form.onSuccess := fun _ => None; Form.onError := fun _ => None |}.

(** A form with a query typed in, and one with blanks only. *)
Definition typed : Form.State :=
  {| Form.query := lit "plumbers in Manchester"; Form.isLoading := false |}.

Definition blank : Form.State :=
  {| Form.query := [32; 9; 160]%N; Form.isLoading := false |}.

End Samples.

(** A mounted page whose first load has been answered and whose form has
    a query typed in. *)
Module PageSamples.

Import Js Api Page.

Definition ready : Mounted :=
  after [LoadSettles 0 Samples.online; Edit (lit "plumbers in Manchester")].

Definition scrape_response : AxiosResponse ScrapeResponse :=
  {| data := Samples.three_of_which_two; status := 200 |}.

Definition leads_response : AxiosResponse (list Lead) :=
  {| data := [Samples.acme; Samples.bolt]; status := 200 |}.

(** A network that filters: asked for high priority only it answers with
    the lead without a website, otherwise with both. *)
Definition high_priority_response : AxiosResponse (list Lead) :=
  {| data := [Samples.acme]; status := 200 |}.

Definition filtering : Network :=
  fun t =>
    match t return Request -> Settled t with
    | ScrapeResponseT => fun _ => inr scrape_response
    | LeadsT =>
        fun req =>
          match params req with
          | [(_, JBoolean true)] => inr high_priority_response
          | _ => inr leads_response
          end
    end.

End PageSamples.

Unset Implicit Arguments.

(* ================================================================== *)
(** ** Facts about strings and numbers                                 *)
(* ================================================================== *)

Module JsFacts.

Import Js.

Lemma trimStart_nil_iff (s : JsString) :
  trimStart s = [] <-> forallb isWhiteSpace s = true.
Proof.
  induction s as [|c r IH]; simpl.
  - split; reflexivity.
  - destruct (isWhiteSpace c); simpl.
    + exact IH.
    + split; discriminate.
Qed.

Lemma forallb_trimStart (s : JsString) :
  forallb isWhiteSpace (trimStart s) = forallb isWhiteSpace s.
Proof.
  induction s as [|c r IH]; simpl; [reflexivity|].
  destruct (isWhiteSpace c) eqn:Hc; simpl.
  - exact IH.
  - rewrite Hc. reflexivity.
Qed.

Lemma forallb_rev (f : N -> bool) (s : JsString) :
  forallb f (rev s) = forallb f s.
Proof.
  induction s as [|c r IH]; simpl; [reflexivity|].
  rewrite forallb_app, IH. simpl.
  rewrite andb_true_r. apply andb_comm.
Qed.

Lemma rev_nil_iff (A : Type) (l : list A) : rev l = [] <-> l = [].
Proof.
  split; intros H.
  - rewrite <- (rev_involutive l), H. reflexivity.
  - subst. reflexivity.
Qed.

(** A string trims to the empty string exactly when all of its code units
    are white space. *)
Lemma trim_nil_iff (s : JsString) :
  trim s = [] <-> forallb isWhiteSpace s = true.
Proof.
  unfold trim, trimEnd.
  rewrite <- forallb_trimStart, <- forallb_rev.
  split; intros H.
  - apply trimStart_nil_iff, rev_nil_iff, H.
  - apply rev_nil_iff, trimStart_nil_iff, H.
Qed.

Lemma truthy_trim (s : JsString) :
  truthy_string (trim s) = negb (forallb isWhiteSpace s).
Proof.
  destruct (forallb isWhiteSpace s) eqn:Hs.
  - apply trim_nil_iff in Hs. rewrite Hs. reflexivity.
  - destruct (trim s) eqn:Ht; [|reflexivity].
    apply trim_nil_iff in Ht. congruence.
Qed.

Lemma not_all_white_space (s : JsString) :
  forallb isWhiteSpace s = false <->
  exists c, In c s /\ isWhiteSpace c = false.
Proof.
  induction s as [|c r IH]; simpl.
  - split; [discriminate | intros [c [[] _]]].
  - destruct (isWhiteSpace c) eqn:Hc; simpl.
    + rewrite IH. split.
      * intros [d [Hd Hw]]. exists d. auto.
      * intros [d [[Hd|Hd] Hw]]; [subst; congruence | exists d; auto].
    + split; [|reflexivity]. intros _. exists c. auto.
Qed.

(** Comparisons of a number with zero, read off its decomposition. *)
Lemma SFcompare_refl_finite (s : bool) (m : positive) (e : Z) :
  SFcompare (S754_finite s m e) (S754_finite s m e) = Some Eq.
Proof.
  simpl. rewrite Z.compare_refl, Pos.compare_cont_refl.
  destruct s; reflexivity.
Qed.

Lemma is_nan_spec (x : number) :
  is_nan x = match Prim2SF x with S754_nan => true | _ => false end.
Proof.
  unfold is_nan. rewrite FloatAxioms.eqb_spec. unfold SFeqb.
  destruct (Prim2SF x) as [s|s| |s m e].
  - reflexivity.
  - destruct s; reflexivity.
  - reflexivity.
  - rewrite SFcompare_refl_finite. reflexivity.
Qed.

Lemma eqb_zero_spec (x : number) :
  (x =? 0)%float = match Prim2SF x with S754_zero _ => true | _ => false end.
Proof.
  rewrite FloatAxioms.eqb_spec. unfold SFeqb.
  change (Prim2SF 0) with (S754_zero false).
  destruct (Prim2SF x) as [s|s| |s m e]; simpl;
    try reflexivity; destruct s; reflexivity.
Qed.

Lemma truthy_number_spec (x : number) :
  truthy_number x =
  match Prim2SF x with
  | S754_zero _ | S754_nan => false
  | _ => true
  end.
Proof.
  unfold truthy_number. rewrite eqb_zero_spec, is_nan_spec.
  destruct (Prim2SF x); reflexivity.
Qed.

(** For a number that is not negative, being truthy is being positive. *)
Lemma truthy_nonnegative (x : number) :
  (0 <=? x)%float = true -> truthy_number x = (0 <? x)%float.
Proof.
  rewrite truthy_number_spec, FloatAxioms.leb_spec, FloatAxioms.ltb_spec.
  unfold SFleb, SFltb. change (Prim2SF 0) with (S754_zero false).
  destruct (Prim2SF x) as [s|s| |s m e]; simpl;
    try reflexivity; try discriminate; destruct s; simpl;
    try reflexivity; discriminate.
Qed.

(** A truthy number is not zero, and zero is not truthy. *)
Lemma truthy_number_zero (x : number) :
  (x =? 0)%float = true -> truthy_number x = false.
Proof.
  intros H. unfold truthy_number. rewrite H. reflexivity.
Qed.

End JsFacts.

(* ================================================================== *)
(** ** Facts about asynchronous programs                               *)
(* ================================================================== *)

Module AsyncFacts.

Import Js Async.

Section Coherence.

Variable E : Type -> Type.
Variable S : Type.
Variable handle : forall X : Type, E X -> S -> X * S.
Variable handle_now : forall X : Type, E X -> S -> option (X * S).

(** The two handlers agree on the effects that complete at once. *)
Hypothesis agree :
  forall (X : Type) (ev : E X) (s : S) (r : X * S),
    handle_now X ev s = Some r -> handle X ev s = r.

(** Running to completion is running to the first suspension point and
    going on from there. *)
Lemma resume_run_sync (A : Type) (p : Prog E A) (s : S) :
  resume handle (run_sync handle_now p s) = run handle p s.
Proof.
  revert s. induction p as [a|e|X ev k IH]; intros s; simpl; try reflexivity.
  destruct (handle_now X ev s) as [[x s1]|] eqn:Hnow.
  - rewrite (agree _ _ _ _ Hnow). specialize (IH x s1).
    destruct (run_sync handle_now (k x) s1) as [[s2 tr] w].
    destruct (run handle (k x) s1) as [[s3 tr3] r3].
    destruct w as [r|Y ev' k']; simpl in IH |- *.
    + congruence.
    + destruct (handle Y ev' s2) as [y s4].
      destruct (run handle (k' y) s4) as [[s5 tr5] r5].
      congruence.
  - simpl. destruct (handle X ev s) as [x s1].
    destruct (run handle (k x) s1) as [[s2 tr2] r2]. reflexivity.
Qed.

End Coherence.

End AsyncFacts.

(* ================================================================== *)
(** ** The leads table                                                 *)
(* ================================================================== *)

Module TableSpec.

Import Js Api Table.

(** With leads to show and no load in progress, the table has one row per
    lead, in order. *)
Lemma LeadsTable_rows (lead : Lead) (leads : list Lead) :
  LeadsTable (lead :: leads) false = TableBody (map row (lead :: leads)).
Proof. reflexivity. Qed.

Lemma LeadsTable_inv (leads : list Lead) (loading : bool) (rows : list Row) :
  LeadsTable leads loading = TableBody rows ->
  loading = false /\ leads <> [] /\ rows = map row leads.
Proof.
  unfold LeadsTable. destruct loading; [discriminate|].
  destruct leads as [|l ls]; simpl; [discriminate|].
  intros H. injection H as <-. repeat split. discriminate.
Qed.

(** C1: every lead the table renders gets a row of its own, and the badge of
    that row reads High exactly when the lead's [has_website] is false, and
    Low exactly when it is true. *)
Theorem priority_badge_iff_no_website :
  forall (leads : list Lead) (loading : bool) (rows : list Row)
         (i : nat) (lead : Lead),
    LeadsTable leads loading = TableBody rows ->
    nth_error leads i = Some lead ->
    exists r : Row,
      nth_error rows i = Some r
      /\ key r = id lead
      /\ (priority_cell r = High <-> has_website lead = false)
      /\ (priority_cell r = Low <-> has_website lead = true).
Proof.
  intros leads loading rows i lead Hview Hlead.
  apply LeadsTable_inv in Hview. destruct Hview as [_ [_ ->]].
  exists (row lead). split.
  - rewrite nth_error_map, Hlead. reflexivity.
  - split; [reflexivity|]. simpl.
    destruct (has_website lead); simpl; repeat split;
      intros; congruence.
Qed.

Lemma priority_badge_witness :
  exists r : Row,
    nth_error (map row [Samples.acme; Samples.bolt]) 1 = Some r
    /\ key r = id Samples.bolt
    /\ (priority_cell r = High <-> has_website Samples.bolt = false)
    /\ (priority_cell r = Low <-> has_website Samples.bolt = true).
Proof.
  apply (@priority_badge_iff_no_website
           [Samples.acme; Samples.bolt] false _ 1 Samples.bolt).
  - reflexivity.
  - reflexivity.
Defined.

End TableSpec.

(* ================================================================== *)
(** ** The stats summary                                               *)
(* ================================================================== *)

Module StatsSpec.

Import Js Api Stats.
Local Open Scope string_scope.
Local Open Scope float_scope.

(** The guard of the conversion card is the truthiness of [leads_added]:
    the percentage is computed, as
    [Math.round(high_priority / leads_added * 100)], exactly when
    [leads_added] is neither zero nor NaN; and for a [leads_added] that is
    not negative that is the same as [leads_added > 0]. *)
Theorem conversion_guarded_by_truthiness :
  forall stats : ScrapeResponse,
    ((leads_added stats =? 0) = true ->
       conversion stats = ([], Literal "0%"))
    /\ (truthy_number (leads_added stats) = true ->
          conversion stats =
          ([(high_priority stats, leads_added stats)],
           Percent (Math_round (high_priority stats / leads_added stats * 100))))
    /\ (truthy_number (leads_added stats) = false ->
          conversion stats = ([], Literal "0%"))
    /\ ((0 <=? leads_added stats) = true ->
          truthy_number (leads_added stats) = (0 <? leads_added stats)).
Proof.
  intros stats. unfold conversion. repeat split.
  - intros H. rewrite (JsFacts.truthy_number_zero _ H). reflexivity.
  - intros ->. reflexivity.
  - intros ->. reflexivity.
  - apply JsFacts.truthy_nonnegative.
Qed.

(** Outside the counts, which a response never holds, the guard is still
    the truthiness: a negative [leads_added] is divided by. *)
Lemma conversion_divides_by_negative_count :
  (0 <? leads_added Samples.negative_count) = false
  /\ conversion Samples.negative_count = ([(1, -2)], Percent (-50)).
Proof. split; vm_compute; reflexivity. Qed.

(** C2: for every response whose [leads_added] is a count (not negative),
    the percentage is computed, as
    [Math.round(high_priority / leads_added * 100)], when [leads_added > 0]
    and only then: a division is performed only for [leads_added > 0], and
    when [leads_added] is 0 no division is performed and the literal 0% is
    shown instead. *)
Theorem conversion_only_for_positive_count :
  forall stats : ScrapeResponse,
    (0 <=? leads_added stats) = true ->
    ((0 <? leads_added stats) = true ->
       conversion stats
       = ([(high_priority stats, leads_added stats)],
          Percent (Math_round (high_priority stats / leads_added stats * 100))))
    /\ (fst (conversion stats) <> [] -> (0 <? leads_added stats) = true)
    /\ ((0 <? leads_added stats) = false ->
          conversion stats = ([], Literal "0%"))
    /\ ((leads_added stats =? 0) = true ->
          conversion stats = ([], Literal "0%")).
Proof.
  intros stats Hcount.
  pose proof (JsFacts.truthy_nonnegative _ Hcount) as Hguard.
  unfold conversion. rewrite Hguard. split; [|split; [|split]].
  - intros ->. reflexivity.
  - destruct (0 <? leads_added stats); simpl; [reflexivity|].
    intros H. exfalso. apply H. reflexivity.
  - intros ->. reflexivity.
  - intros Hzero. rewrite <- Hguard, (JsFacts.truthy_number_zero _ Hzero).
    reflexivity.
Qed.

Lemma conversion_positive_count_witness :
  (conversion Samples.three_of_which_two
   = ([(2, 3)], Percent (Math_round (2 / 3 * 100))))
  /\ (conversion {| success := true; leads_added := 0; high_priority := 0 |}
      = ([], Literal "0%")).
Proof.
  split.
  - apply (proj1 (conversion_only_for_positive_count
                    Samples.three_of_which_two eq_refl)).
    reflexivity.
  - apply (proj2 (proj2 (proj2
             (conversion_only_for_positive_count
                {| success := true; leads_added := 0; high_priority := 0 |}
                eq_refl)))).
    reflexivity.
Defined.

(** The rounding is that of binary64: 29 of 200 is shown as 14%, not 15%. *)
Example conversion_29_of_200 :
  conversion {| success := true; leads_added := 200; high_priority := 29 |}
  = ([(29, 200)], Percent 14).
Proof. vm_compute. reflexivity. Qed.

Example conversion_2_of_3 :
  conversion Samples.three_of_which_two = ([(2, 3)], Percent 67).
Proof. vm_compute. reflexivity. Qed.

(** C10: for [null] the component renders nothing; for a response it renders
    the three cards, whose contents are read from that response. *)
Theorem StatsSummary_null_renders_nothing :
  StatsSummary None = None
  /\ forall stats : ScrapeResponse,
       StatsSummary (Some stats) =
       Some {| total_leads_found := leads_added stats;
               high_priority_leads := high_priority stats;
               conversion_potential := snd (conversion stats) |}.
Proof. split; reflexivity. Qed.

End StatsSpec.

(* ================================================================== *)
(** ** The API client                                                  *)
(* ================================================================== *)

Module ApiSpec.

Import Js Async Api.
Local Open Scope string_scope.

(** What a call through [api] does, by how the request settles. *)
Lemma call_fulfilled (t : Payload) (net : Network) (req : Request)
      (label : string) (response : AxiosResponse (payload t)) :
  net t req = inr response ->
  call net
    (try_catch
       (bind (await_request t req) (fun response => Ret (data response)))
       (fun error =>
          bind (trigger (ConsoleError label error)) (fun _ => Throw error)))
  = ([obs (Axios t req)], inr (data response)).
Proof.
  intros H. unfold call. simpl. rewrite H. reflexivity.
Qed.

Lemma call_rejected (t : Payload) (net : Network) (req : Request)
      (label : string) (e : Error) :
  net t req = inl e ->
  call net
    (try_catch
       (bind (await_request t req) (fun response => Ret (data response)))
       (fun error =>
          bind (trigger (ConsoleError label error)) (fun _ => Throw error)))
  = ([obs (Axios t req); obs (ConsoleError label e)], inl e).
Proof.
  intros H. unfold call. simpl. rewrite H. reflexivity.
Qed.

(** C4: [scrapeLeads query] first sends POST /scrape-leads with the JSON
    body [{"query": query}] (the instance declares the JSON content type),
    whatever becomes of the request; when the request is fulfilled, nothing
    else happens and the call resolves to the response's [data], a record of
    [success], [leads_added] and [high_priority]. *)
Theorem scrapeLeads_posts_query_returns_data :
  forall (net : Network) (query : JsString),
    let req := {| method := POST; url := "/scrape-leads";
                  body := Some [("query", JString query)]; params := [] |} in
    (forall env, In ("Content-Type", "application/json") (headers (api env)))
    /\ (exists tr r,
          call net (scrapeLeads query) = (obs (Axios ScrapeResponseT req) :: tr, r))
    /\ (forall response : AxiosResponse ScrapeResponse,
          net ScrapeResponseT req = inr response ->
          call net (scrapeLeads query)
          = ([obs (Axios ScrapeResponseT req)], inr (data response))
          /\ data response
             = {| success := success (data response);
                  leads_added := leads_added (data response);
                  high_priority := high_priority (data response) |}).
Proof.
  intros net query req. split; [|split].
  - intros env. simpl. auto.
  - destruct (net ScrapeResponseT req) as [e|response] eqn:H.
    + eexists _, _. unfold scrapeLeads, api_post.
      rewrite (call_rejected ScrapeResponseT net req _ e H). reflexivity.
    + eexists _, _. unfold scrapeLeads, api_post.
      rewrite (call_fulfilled ScrapeResponseT net req _ response H).
      reflexivity.
  - intros response H. split.
    + exact (call_fulfilled ScrapeResponseT net req _ response H).
    + destruct (data response). reflexivity.
Qed.

(** C5: [getLeads b] first sends GET /leads with the query parameter
    [high_priority_only = b], and [getLeads()] sends it with [false]; when
    the request is fulfilled the call resolves to the response's sequence
    of leads as it is. *)
Theorem getLeads_gets_leads_returns_data :
  forall (net : Network),
    let req := fun b : bool =>
      {| method := GET; url := "/leads"; body := None;
         params := [("high_priority_only", JBoolean b)] |} in
    (forall b : bool,
       (exists tr r,
          call net (getLeads (Some b)) = (obs (Axios LeadsT (req b)) :: tr, r))
       /\ forall response : AxiosResponse (list Lead),
            net LeadsT (req b) = inr response ->
            call net (getLeads (Some b))
            = ([obs (Axios LeadsT (req b))], inr (data response)))
    /\ (exists tr r,
          call net (getLeads None) = (obs (Axios LeadsT (req false)) :: tr, r))
    /\ (forall response : AxiosResponse (list Lead),
          net LeadsT (req false) = inr response ->
          call net (getLeads None)
          = ([obs (Axios LeadsT (req false))], inr (data response))).
Proof.
  intros net req.
  assert (Hsent : forall arg b,
             match arg with Some b' => b' | None => false end = b ->
             exists tr r,
               call net (getLeads arg) = (obs (Axios LeadsT (req b)) :: tr, r)).
  { intros arg b <-. unfold getLeads, api_get.
    destruct (net LeadsT (req match arg with Some b' => b' | None => false end))
      as [e|response] eqn:H.
    - eexists _, _. rewrite (call_rejected LeadsT net _ _ e H). reflexivity.
    - eexists _, _. rewrite (call_fulfilled LeadsT net _ _ response H).
      reflexivity. }
  split; [|split].
  - intros b. split.
    + apply Hsent. reflexivity.
    + intros response H. exact (call_fulfilled LeadsT net _ _ response H).
  - apply Hsent. reflexivity.
  - intros response H. exact (call_fulfilled LeadsT net _ _ response H).
Qed.

Lemma scrapeLeads_witness :
  call Samples.online (scrapeLeads (lit "plumbers in Manchester"))
  = ([obs (Axios ScrapeResponseT
             {| method := POST; url := "/scrape-leads";
                body := Some [("query",
                               JString (lit "plumbers in Manchester"))];
                params := [] |})],
     inr Samples.three_of_which_two).
Proof.
  apply (proj2 (proj2 (scrapeLeads_posts_query_returns_data
                         Samples.online (lit "plumbers in Manchester")))
           {| data := Samples.three_of_which_two; status := 200 |}).
  reflexivity.
Defined.

Lemma getLeads_witness :
  call Samples.online (getLeads (Some true))
  = ([obs (Axios LeadsT
             {| method := GET; url := "/leads"; body := None;
                params := [("high_priority_only", JBoolean true)] |})],
     inr [Samples.acme; Samples.bolt]).
Proof.
  apply (proj2 (proj1 (getLeads_gets_leads_returns_data Samples.online) true)
           {| data := [Samples.acme; Samples.bolt]; status := 200 |}).
  reflexivity.
Defined.

(** C6: a [Lead] is exactly a number [id], a string [name], four nullable
    strings [category], [address], [phone] and [website], a boolean
    [has_website], and the strings [source], [query] and [created_at]:
    leads and such tuples correspond one to one. *)
Theorem lead_has_the_shape_of_its_fields :
  (forall l : Lead, lead_of_fields (lead_fields l) = l)
  /\ (forall f : number * JsString
                 * option JsString * option JsString
                 * option JsString * option JsString
                 * bool * JsString * JsString * JsString,
        lead_fields (lead_of_fields f) = f)
  /\ (forall l : Lead,
        lead_fields l
        = (id l, name l, category l, address l, phone l, website l,
           has_website l, source l, query l, created_at l)).
Proof.
  split; [|split].
  - intros []. reflexivity.
  - intros [[[[[[[[[i n] c] a] p] w] h] s] q] t]. reflexivity.
  - reflexivity.
Qed.

(** C7: when the request is rejected with [e], [scrapeLeads] and [getLeads]
    log it and reject with the same [e]; a rejection is no fulfilled value,
    so a failure is told apart from a success, the empty one included. *)
Theorem failed_request_is_rethrown :
  forall (net : Network) (query : JsString) (arg : option bool) (e : Error),
    let scrape := {| method := POST; url := "/scrape-leads";
                     body := Some [("query", JString query)]; params := [] |} in
    let leads := {| method := GET; url := "/leads"; body := None;
                    params := [("high_priority_only",
                                JBoolean match arg with
                                         | Some b => b
                                         | None => false
                                         end)] |} in
    (net ScrapeResponseT scrape = inl e ->
       call net (scrapeLeads query)
       = ([obs (Axios ScrapeResponseT scrape);
           obs (ConsoleError "Error scraping leads:" e)], inl e)
       /\ forall v : ScrapeResponse, snd (call net (scrapeLeads query)) <> inr v)
    /\ (net LeadsT leads = inl e ->
          call net (getLeads arg)
          = ([obs (Axios LeadsT leads);
              obs (ConsoleError "Error fetching leads:" e)], inl e)
          /\ forall v : list Lead, snd (call net (getLeads arg)) <> inr v).
Proof.
  intros net query arg e scrape leads. split; intros H.
  - assert (Hc : call net (scrapeLeads query)
                 = ([obs (Axios ScrapeResponseT scrape);
                     obs (ConsoleError "Error scraping leads:" e)], inl e))
      by exact (call_rejected ScrapeResponseT net scrape _ e H).
    split; [exact Hc|].
    intros v. rewrite Hc. discriminate.
  - assert (Hc : call net (getLeads arg)
                 = ([obs (Axios LeadsT leads);
                     obs (ConsoleError "Error fetching leads:" e)], inl e))
      by exact (call_rejected LeadsT net leads _ e H).
    split; [exact Hc|].
    intros v. rewrite Hc. discriminate.
Qed.

Lemma failed_request_witness :
  (call Samples.offline (scrapeLeads (lit "plumbers in Manchester"))
   = ([obs (Axios ScrapeResponseT
              {| method := POST; url := "/scrape-leads";
                 body := Some [("query",
                                JString (lit "plumbers in Manchester"))];
                 params := [] |});
       obs (ConsoleError "Error scraping leads:" Samples.network_error)],
      inl Samples.network_error))
  /\ (call Samples.offline (getLeads None)
      = ([obs (Axios LeadsT
                 {| method := GET; url := "/leads"; body := None;
                    params := [("high_priority_only", JBoolean false)] |});
          obs (ConsoleError "Error fetching leads:" Samples.network_error)],
         inl Samples.network_error)).
Proof.
  destruct (failed_request_is_rethrown Samples.offline
              (lit "plumbers in Manchester") None Samples.network_error)
    as [Hs Hl].
  split.
  - exact (proj1 (Hs eq_refl)).
  - exact (proj1 (Hl eq_refl)).
Defined.

(** A fulfilled request with no leads resolves to the empty sequence: not
    what a failed one does. *)
Example empty_success_is_not_failure :
  snd (call Samples.online_empty (getLeads None)) = inr []
  /\ snd (call Samples.offline (getLeads None)) = inl Samples.network_error.
Proof. split; reflexivity. Qed.

End ApiSpec.

(* ================================================================== *)
(** ** The scrape form                                                 *)
(* ================================================================== *)

Module FormSpec.

Import Js Async Api Form.
Local Open Scope string_scope.

(** The three ways a submission goes. *)
Lemma submit_blank (props : Props) (net : Network) (st : State) :
  truthy_string (trim (query st)) = false ->
  submit props net st
  = (st, [obs PreventDefault; obs (Alert "Please enter a search query")],
     inr tt).
Proof.
  intros H. unfold submit, ScrapeForm, handleSubmit. cbn [onSubmit].
  rewrite H. reflexivity.
Qed.

Lemma submit_rejected (props : Props) (net : Network) (st : State)
      (req : Request) (e : Error) :
  truthy_string (trim (query st)) = true ->
  req = {| method := POST; url := "/scrape-leads";
           body := Some [("query", JString (query st))]; params := [] |} ->
  net ScrapeResponseT req = inl e ->
  submit props net st
  = ({| query := query st; isLoading := false |},
     [obs PreventDefault; obs (SetIsLoading true);
      obs (Call (Axios ScrapeResponseT req));
      obs (Call (ConsoleError "Error scraping leads:" e));
      obs (OnError e); obs (SetIsLoading false)],
     match onError props e with Some e' => inl e' | None => inr tt end).
Proof.
  intros H -> Hnet. unfold submit, ScrapeForm, handleSubmit. cbn [onSubmit].
  rewrite H. simpl. rewrite Hnet. simpl.
  destruct (onError props e); reflexivity.
Qed.

Lemma submit_fulfilled (props : Props) (net : Network) (st : State)
      (req : Request) (response : AxiosResponse ScrapeResponse) :
  truthy_string (trim (query st)) = true ->
  req = {| method := POST; url := "/scrape-leads";
           body := Some [("query", JString (query st))]; params := [] |} ->
  net ScrapeResponseT req = inr response ->
  submit props net st
  = ({| query := empty; isLoading := false |},
     ([obs PreventDefault; obs (SetIsLoading true);
       obs (Call (Axios ScrapeResponseT req));
       obs (SetQuery empty); obs (OnSuccess (data response))]
      ++ match onSuccess props (data response) with
         | Some e' => [obs (OnError e')]
         | None => []
         end
      ++ [obs (SetIsLoading false)])%list,
     match onSuccess props (data response) with
     | Some e' => match onError props e' with
                  | Some e'' => inl e''
                  | None => inr tt
                  end
     | None => inr tt
     end).
Proof.
  intros H -> Hnet. unfold submit, ScrapeForm, handleSubmit. cbn [onSubmit].
  rewrite H. simpl. rewrite Hnet. simpl.
  destruct (onSuccess props (data response)) as [e'|]; simpl.
  - destruct (onError props e'); reflexivity.
  - reflexivity.
Qed.

(** C3: submitting a query that is empty or all white space is rejected:
    the handler alerts and returns, the form is left as it was and no request
    is sent; and whenever a submission does send a request, it is the scrape
    request for the query, which then has a code unit that is not white
    space. *)
Theorem blank_query_sends_no_request :
  forall (props : Props) (net : Network) (st : State),
    (forallb isWhiteSpace (query st) = true ->
       submit props net st
       = (st, [obs PreventDefault; obs (Alert "Please enter a search query")],
          inr tt)
       /\ filter is_request (snd (fst (submit props net st))) = [])
    /\ (forall ef : Effect formE,
          In ef (snd (fst (submit props net st))) ->
          is_request ef = true ->
          ef = scrape_request (query st)
          /\ exists c, In c (query st) /\ isWhiteSpace c = false).
Proof.
  intros props net st.
  pose proof (JsFacts.truthy_trim (query st)) as Ht.
  destruct (forallb isWhiteSpace (query st)) eqn:Hws; simpl in Ht.
  - rewrite (submit_blank props net st Ht). split.
    + intros _. split; reflexivity.
    + simpl. intros ef [<-|[<-|[]]]; discriminate.
  - split; [discriminate|].
    apply JsFacts.not_all_white_space in Hws.
    destruct (net ScrapeResponseT
                {| method := POST; url := "/scrape-leads";
                   body := Some [("query", JString (query st))];
                   params := [] |}) as [e|response] eqn:Hnet.
    + rewrite (submit_rejected props net st _ e Ht eq_refl Hnet). simpl.
      intros ef [<-|[<-|[<-|[<-|[<-|[<-|[]]]]]]]; try discriminate.
      intros _. split; [reflexivity | exact Hws].
    + change (AxiosResponse ScrapeResponse) in response.
      rewrite (submit_fulfilled props net st _ response Ht eq_refl Hnet).
      destruct (onSuccess props (data response)); simpl;
        intros ef H; repeat (destruct H as [<-|H]; try discriminate);
        try (destruct H);
        intros _; (split; [reflexivity | exact Hws]).
Qed.

Lemma blank_query_witness :
  submit Samples.quiet Samples.online Samples.blank
  = (Samples.blank,
     [obs PreventDefault; obs (Alert "Please enter a search query")], inr tt)
  /\ filter is_request
       (snd (fst (submit Samples.quiet Samples.online Samples.blank))) = [].
Proof.
  apply (proj1 (blank_query_sends_no_request
                  Samples.quiet Samples.online Samples.blank)).
  reflexivity.
Defined.

(** C9: a submitted scrape whose request is rejected leaves the query as it
    was and calls [onError] and no other callback; one whose request is
    fulfilled sets the query to the empty string and calls [onSuccess]
    ([onError] too, should [onSuccess] throw); either way the loading flag
    is off at the end. *)
Theorem failed_scrape_keeps_query :
  forall (props : Props) (net : Network) (st : State),
    truthy_string (trim (query st)) = true ->
    let req := {| method := POST; url := "/scrape-leads";
                  body := Some [("query", JString (query st))];
                  params := [] |} in
    (forall e : Error,
       net ScrapeResponseT req = inl e ->
       submit props net st
       = ({| query := query st; isLoading := false |},
          [obs PreventDefault; obs (SetIsLoading true);
           obs (Call (Axios ScrapeResponseT req));
           obs (Call (ConsoleError "Error scraping leads:" e));
           obs (OnError e); obs (SetIsLoading false)],
          match onError props e with Some e' => inl e' | None => inr tt end))
    /\ (forall response : AxiosResponse ScrapeResponse,
          net ScrapeResponseT req = inr response ->
          submit props net st
          = ({| query := empty; isLoading := false |},
             ([obs PreventDefault; obs (SetIsLoading true);
               obs (Call (Axios ScrapeResponseT req));
               obs (SetQuery empty); obs (OnSuccess (data response))]
              ++ match onSuccess props (data response) with
                 | Some e' => [obs (OnError e')]
                 | None => []
                 end
              ++ [obs (SetIsLoading false)])%list,
             match onSuccess props (data response) with
             | Some e' => match onError props e' with
                          | Some e'' => inl e''
                          | None => inr tt
                          end
             | None => inr tt
             end)).
Proof.
  intros props net st H req. split.
  - intros e Hnet. exact (submit_rejected props net st req e H eq_refl Hnet).
  - intros response Hnet.
    exact (submit_fulfilled props net st req response H eq_refl Hnet).
Qed.

Lemma failed_scrape_witness :
  submit Samples.quiet Samples.offline Samples.typed
  = ({| query := lit "plumbers in Manchester"; isLoading := false |},
     [obs PreventDefault; obs (SetIsLoading true);
      obs (Call (Axios ScrapeResponseT
                   {| method := POST; url := "/scrape-leads";
                      body := Some [("query",
                                     JString (lit "plumbers in Manchester"))];
                      params := [] |}));
      obs (Call (ConsoleError "Error scraping leads:" Samples.network_error));
      obs (OnError Samples.network_error); obs (SetIsLoading false)],
     inr tt).
Proof.
  apply (proj1 (failed_scrape_keeps_query
                  Samples.quiet Samples.offline Samples.typed eq_refl)
           Samples.network_error).
  reflexivity.
Defined.

Example fulfilled_scrape_resets_query :
  fst (fst (submit Samples.quiet Samples.online Samples.typed))
  = {| query := empty; isLoading := false |}.
Proof. reflexivity. Qed.

End FormSpec.

(* ================================================================== *)
(** ** The mounted form                                                *)
(* ================================================================== *)

Module MountedSpec.

Import Js Async Api Form.
Local Open Scope string_scope.

(** The handlers of the form agree on the effects that complete at once. *)
Lemma handle_now_handle (props : Props) (net : Network) :
  forall (X : Type) (ev : formE X) (st : State) (r : X * State),
    handle_now props ev st = Some r -> handle props net ev st = r.
Proof.
  intros X ev st r.
  destruct ev as [X ev'| | | | | |]; simpl;
    try (intros H; injection H as <-; reflexivity).
  destruct ev'; simpl; [discriminate|].
  intros H; injection H as <-; reflexivity.
Qed.

(** A submission is its first stretch followed by the rest. *)
Lemma submit_in_two_stretches (props : Props) (net : Network) (st : State) :
  resume (handle props net)
    (run_sync (handle_now props) (onSubmit (ScrapeForm st)) st)
  = submit props net st.
Proof.
  apply AsyncFacts.resume_run_sync. apply handle_now_handle.
Qed.

(** The first stretch of a submission made while nothing is loading: it
    either finishes with the form as it was, or it turns the loading flag on
    and waits, and what waits finishes with the flag off. *)
Lemma handleSubmit_first_stretch (props : Props) (q : JsString) (st : State) :
  isLoading st = false ->
  (exists tr r,
     run_sync (handle_now props) (handleSubmit q) st = (st, tr, Finished r))
  \/ (exists st' tr X ev k,
        run_sync (handle_now props) (handleSubmit q) st
        = (st', tr, @Awaiting formE unit X ev k)
        /\ isLoading st' = true
        /\ finishes_idle props (existT _ X (ev, k))).
Proof.
  intros Hidle. unfold handleSubmit.
  destruct (truthy_string (trim q)); simpl.
  - right. do 5 eexists. split; [reflexivity|]. split; [reflexivity|].
    intros x st0. simpl in x |- *. destruct x as [e|response]; simpl.
    + destruct (onError props e); simpl; do 3 eexists; split; reflexivity.
    + destruct (onSuccess props (data response)) as [e'|]; simpl.
      * destruct (onError props e'); simpl;
          do 3 eexists; split; reflexivity.
      * do 3 eexists; split; reflexivity.
  - left. do 2 eexists. reflexivity.
Qed.

Lemma consistent_mount (props : Props) : consistent props mount.
Proof. left. split; reflexivity. Qed.

Lemma consistent_step (props : Props) (s s' : Instance) (a : Action) :
  consistent props s -> step props s a = Some s' -> consistent props s'.
Proof.
  intros [[Hidle Hnone]|[Hbusy [p [Hone Hp]]]].
  - (* nothing is loading *)
    destruct a as [v| |n net]; unfold step; simpl; try rewrite Hidle.
    + intros H. injection H as <-. left.
      unfold launch. simpl. rewrite Hidle. split; [reflexivity | exact Hnone].
    + intros H. injection H as <-. unfold launch.
      destruct (handleSubmit_first_stretch props (query (state s)) (state s) Hidle)
        as [[tr [r Hrun]]|[st' [tr [X [ev [k [Hrun [Hon Hfin]]]]]]]];
        rewrite Hrun; simpl.
      * left. split; assumption.
      * right. split; [exact Hon|]. rewrite Hnone. simpl.
        eexists. split; [reflexivity | exact Hfin].
    + rewrite Hnone. destruct n; discriminate.
  - (* a request is in flight *)
    destruct a as [v| |n net]; unfold step; simpl; try rewrite Hbusy;
      try discriminate.
    rewrite Hone. destruct n as [|n]; simpl; [|destruct n; discriminate].
    destruct p as [X [ev k]]. intros H. injection H as <-.
    destruct (Hp (fst (handle props net ev (state s))) (state s))
      as [st' [tr [r [Hrun Hoff]]]].
    simpl in Hrun. unfold launch. simpl. rewrite Hrun. simpl.
    left. split; [exact Hoff | reflexivity].
Qed.

Lemma consistent_act (props : Props) (s : Instance) (a : Action) :
  consistent props s -> consistent props (act props s a).
Proof.
  intros H. unfold act. destruct (step props s a) eqn:Hs.
  - exact (consistent_step props s i a H Hs).
  - exact H.
Qed.

Lemma consistent_fold (props : Props) (actions : list Action) (s : Instance) :
  consistent props s -> consistent props (fold_left (act props) actions s).
Proof.
  revert s. induction actions as [|a actions IH]; intros s H; simpl.
  - exact H.
  - apply IH, consistent_act, H.
Qed.

(** C8, for one mounted form used through its controls: whatever the user
    and the network do, at most one request is in flight; one is in flight
    exactly when the loading flag is on; while one is in flight the form
    renders its submit button and its input disabled; and so neither a
    submission nor an edit can then be made through them. *)
Theorem one_scrape_in_flight :
  forall (props : Props) (actions : list Action),
    (List.length (inflight (after props actions)) <= 1)%nat
    /\ (isLoading (state (after props actions)) = true
        <-> List.length (inflight (after props actions)) = 1%nat)
    /\ (isLoading (state (after props actions)) = true ->
          step props (after props actions) Submit = None
          /\ forall value : JsString,
               step props (after props actions) (Edit value) = None)
    /\ (inflight (after props actions) <> [] ->
          button_disabled (ScrapeForm (state (after props actions))) = true
          /\ input_disabled (ScrapeForm (state (after props actions))) = true).
Proof.
  intros props actions.
  pose proof (consistent_fold props actions mount (consistent_mount props))
    as H.
  fold (after props actions) in H.
  destruct H as [[Hidle Hnone]|[Hbusy [p [Hone _]]]].
  - rewrite Hidle, Hnone. simpl. split; [lia|]. split; [|split].
    + split; discriminate.
    + discriminate.
    + intros H. exfalso. apply H. reflexivity.
  - rewrite Hone. simpl. split; [lia|]. split; [|split].
    + split; [reflexivity | intros _; exact Hbusy].
    + intros _. unfold step. simpl. rewrite Hbusy. split; reflexivity.
    + intros _. rewrite Hbusy. split; reflexivity.
Qed.

(** C8, as stated, fails: the guard is the disabled controls and nothing
    else.  [handleSubmit] does not look at [isLoading]: a submit event that
    reaches the form while the first scrape is in flight sends a second
    request, and two scrapes are in flight at once. *)
Lemma second_submit_event_sends_second_scrape :
  isLoading
    (state (after Samples.quiet
              [Edit (lit "plumbers in Manchester"); Submit])) = true
  /\ List.length
       (inflight
          (Tracking.submit_event Samples.quiet
             (after Samples.quiet
                [Edit (lit "plumbers in Manchester"); Submit]))) = 2%nat
  /\ Tracking.count is_request
       (log (Tracking.submit_event Samples.quiet
               (after Samples.quiet
                  [Edit (lit "plumbers in Manchester"); Submit]))) = 2%nat
  /\ map Tracking.pending_request
       (inflight
          (Tracking.submit_event Samples.quiet
             (after Samples.quiet
                [Edit (lit "plumbers in Manchester"); Submit])))
     = [Some (Tracking.scrape (lit "plumbers in Manchester"));
        Some (Tracking.scrape (lit "plumbers in Manchester"))].
Proof. repeat split. Qed.

(** A second submission while the first is in flight changes nothing, and
    sends nothing. *)
Example second_submit_is_ignored :
  let once := after Samples.quiet [Edit (lit "plumbers in Manchester"); Submit] in
  let twice := act Samples.quiet once Submit in
  state twice = state once
  /\ List.length (inflight twice) = 1%nat
  /\ List.length (filter is_request (log twice)) = 1%nat.
Proof. repeat split. Qed.

(** Once the request has settled the form can be submitted again. *)
Example submit_after_settle :
  let s := after Samples.quiet
             [Edit (lit "plumbers in Manchester"); Submit;
              Settle 0 Samples.offline; Submit] in
  isLoading (state s) = true
  /\ List.length (filter is_request (log s)) = 2%nat.
Proof. repeat split. Qed.

End MountedSpec.

(* ================================================================== *)
(** ** More about the leads table                                      *)
(* ================================================================== *)

Module TableMore.

Import Js Api Table.

Lemma or_else_truthy (o : option JsString) (d : JsString) :
  truthy_string d = true -> truthy_string (or_else o d) = true.
Proof.
  intros Hd. destruct o as [s|]; simpl; [|exact Hd].
  destruct (truthy_string s) eqn:Hs; [exact Hs | exact Hd].
Qed.

(** X1: what the table shows tells how it was called: a spinner only while
    loading (whatever the leads), the empty message only for no leads, and
    otherwise one row per lead, in the order of the leads, keyed by their
    ids and headed by their names. *)
Theorem LeadsTable_view_characterised :
  forall (leads : list Lead) (loading : bool),
    match LeadsTable leads loading with
    | Spinner => loading = true
    | NoLeadsFound => loading = false /\ leads = []
    | TableBody rows =>
        loading = false
        /\ List.length rows = List.length leads
        /\ (0 < List.length rows)%nat
        /\ map key rows = map id leads
        /\ map business rows = map name leads
    end.
Proof.
  intros leads loading. unfold LeadsTable.
  destruct loading; [reflexivity|].
  destruct leads as [|l ls]; simpl; [split; reflexivity|].
  rewrite length_map, !map_map. simpl. repeat split. lia.
Qed.

(** X2: the address, category and contact cells are never blank: a field
    that is null or the empty string is replaced by its placeholder (N/A,
    Unknown, No phone listed), and a field with text is shown as it is. *)
Theorem fallback_cells_never_blank :
  forall lead : Lead,
    (truthy_string (business_address (row lead)) = true
     /\ truthy_string (category_cell (row lead)) = true
     /\ truthy_string (contact_cell (row lead)) = true)
    /\ (forall text : JsString,
          truthy_string text = true ->
          (address lead = Some text -> business_address (row lead) = text)
          /\ (category lead = Some text -> category_cell (row lead) = text)
          /\ (phone lead = Some text -> contact_cell (row lead) = text))
    /\ (address lead = None \/ address lead = Some empty ->
          business_address (row lead) = lit "N/A")
    /\ (category lead = None \/ category lead = Some empty ->
          category_cell (row lead) = lit "Unknown")
    /\ (phone lead = None \/ phone lead = Some empty ->
          contact_cell (row lead) = lit "No phone listed").
Proof.
  intros lead. split; [|split; [|split; [|split]]].
  - repeat split; apply or_else_truthy; reflexivity.
  - intros text Ht. simpl. repeat split; intros ->; simpl; rewrite Ht;
      reflexivity.
  - simpl. intros [->| ->]; reflexivity.
  - simpl. intros [->| ->]; reflexivity.
  - simpl. intros [->| ->]; reflexivity.
Qed.

(** X3: for a lead whose [has_website] says whether [website] holds a
    non-empty string, the Website column and the Priority column agree: the
    placeholder is shown exactly when the badge reads High, and a link,
    which is then to [website], exactly when it reads Low. *)
Theorem website_column_agrees_with_badge :
  forall lead : Lead,
    has_website lead
    = match website lead with Some w => truthy_string w | None => false end ->
    (website_cell (row lead) = NoWebsite <-> priority_cell (row lead) = High)
    /\ (priority_cell (row lead) = Low <->
        exists w, website lead = Some w /\ website_cell (row lead) = VisitSite w).
Proof.
  intros lead H. simpl. rewrite H.
  destruct (website lead) as [w|]; simpl.
  - destruct (truthy_string w); simpl; split; split;
      try discriminate; try reflexivity.
    + intros _. exists w. split; reflexivity.
    + intros [w' [_ Hw]]. discriminate.
  - split; split; try discriminate; try reflexivity.
    intros [w' [Hw _]]. discriminate.
Qed.

Lemma website_column_witness :
  (website_cell (row Samples.bolt) = NoWebsite
   <-> priority_cell (row Samples.bolt) = High)
  /\ (priority_cell (row Samples.bolt) = Low <->
      exists w, website Samples.bolt = Some w
                /\ website_cell (row Samples.bolt) = VisitSite w).
Proof.
  apply (website_column_agrees_with_badge Samples.bolt). reflexivity.
Defined.

(** Without that, the two columns can disagree: the badge follows
    [has_website], the link follows [website]. *)
Example website_column_can_disagree :
  let lead :=
    {| id := id Samples.acme; name := name Samples.acme;
       category := None; address := None; phone := None;
       website := None; has_website := true;
       source := source Samples.acme; query := query Samples.acme;
       created_at := created_at Samples.acme |} in
  website_cell (row lead) = NoWebsite /\ priority_cell (row lead) = Low.
Proof. split; reflexivity. Qed.

End TableMore.

(* ================================================================== *)
(** ** More about the stats summary                                    *)
(* ================================================================== *)

Module StatsMore.

Import Js Api Stats.
Local Open Scope float_scope.

Lemma Prim2SF_zero (x : number) :
  (x =? 0) = true -> exists s, Prim2SF x = S754_zero s.
Proof.
  rewrite JsFacts.eqb_zero_spec.
  destruct (Prim2SF x) as [s|s| |s m e]; try discriminate.
  intros _. exists s. reflexivity.
Qed.

(** Zero divided by a truthy number, times 100, is a zero. *)
Lemma zero_ratio (x y : number) :
  (x =? 0) = true -> truthy_number y = true ->
  exists s, Prim2SF (x / y * 100) = S754_zero s.
Proof.
  intros Hx Hy. destruct (Prim2SF_zero x Hx) as [s Hs].
  rewrite JsFacts.truthy_number_spec in Hy.
  rewrite FloatAxioms.mul_spec, FloatAxioms.div_spec, Hs.
  change (Prim2SF 100) with (S754_finite false 7036874417766400 (-46)).
  destruct (Prim2SF y) as [t|t| |t m e]; try discriminate;
    simpl; eexists; reflexivity.
Qed.

(** X4: with no high-priority lead among a truthy number of leads, the
    percentage is computed and is a zero. *)
Theorem no_high_priority_is_zero_percent :
  forall stats : ScrapeResponse,
    (high_priority stats =? 0) = true ->
    truthy_number (leads_added stats) = true ->
    exists n : number,
      conversion stats
      = ([(high_priority stats, leads_added stats)], Percent n)
      /\ (n =? 0) = true.
Proof.
  intros stats Hhp Hla. unfold conversion. rewrite Hla.
  eexists. split; [reflexivity|].
  destruct (zero_ratio _ _ Hhp Hla) as [s Hs].
  unfold Math_round. rewrite Hs.
  rewrite JsFacts.eqb_zero_spec, Hs. reflexivity.
Qed.

Lemma no_high_priority_witness :
  exists n : number,
    conversion {| success := true; leads_added := 7; high_priority := 0 |}
    = ([(0, 7)], Percent n)
    /\ (n =? 0) = true.
Proof.
  apply (no_high_priority_is_zero_percent
           {| success := true; leads_added := 7; high_priority := 0 |});
    reflexivity.
Defined.

End StatsMore.

(* ================================================================== *)
(** ** More about the API client and its configuration                 *)
(* ================================================================== *)

Module ApiMore.

Import Js Async Api Tracking.
Local Open Scope string_scope.

(** X5: a call of [scrapeLeads] or [getLeads] sends exactly one request,
    whatever becomes of it (no retry), and writes to the console exactly
    when the request is rejected, once. *)
Theorem one_request_per_call :
  forall (net : Network) (query : JsString) (arg : option bool),
    (count is_axios (fst (call net (scrapeLeads query))) = 1%nat
     /\ count is_console_error (fst (call net (scrapeLeads query)))
        = match snd (call net (scrapeLeads query)) with
          | inl _ => 1%nat
          | inr _ => 0%nat
          end)
    /\ (count is_axios (fst (call net (getLeads arg))) = 1%nat
        /\ count is_console_error (fst (call net (getLeads arg)))
           = match snd (call net (getLeads arg)) with
             | inl _ => 1%nat
             | inr _ => 0%nat
             end).
Proof.
  intros net query arg. split.
  - unfold scrapeLeads, api_post.
    destruct (net ScrapeResponseT
                {| method := POST; url := "/scrape-leads";
                   body := Some [("query", JString query)]; params := [] |})
      as [e|response] eqn:H.
    + rewrite (ApiSpec.call_rejected ScrapeResponseT net _ _ e H).
      split; reflexivity.
    + rewrite (ApiSpec.call_fulfilled ScrapeResponseT net _ _ response H).
      split; reflexivity.
  - unfold getLeads, api_get.
    destruct (net LeadsT
                {| method := GET; url := "/leads"; body := None;
                   params := [("high_priority_only",
                               JBoolean match arg with
                                        | Some b => b
                                        | None => false
                                        end)] |})
      as [e|response] eqn:H.
    + rewrite (ApiSpec.call_rejected LeadsT net _ _ e H).
      split; reflexivity.
    + rewrite (ApiSpec.call_fulfilled LeadsT net _ _ response H).
      split; reflexivity.
Qed.

Lemma or_else_idempotent (o : option JsString) (d : JsString) :
  or_else (Some (or_else o d)) d = or_else o d.
Proof.
  destruct o as [[|c s]|]; simpl; try reflexivity;
    destruct d; reflexivity.
Qed.

(** X6: the base URL of the client is never the empty string: it is the
    environment's [API_URL] when that is set to a non-empty string and
    http://localhost:8000 when it is unset or empty.  Given the value the
    build configuration exports, the client uses that very value, and the
    /api rewrite points below the same URL. *)
Theorem API_URL_falls_back :
  forall process_env_API_URL : option JsString,
    truthy_string (API_URL process_env_API_URL) = true
    /\ baseURL (api process_env_API_URL) = API_URL process_env_API_URL
    /\ (forall u, process_env_API_URL = Some u -> truthy_string u = true ->
          API_URL process_env_API_URL = u)
    /\ (process_env_API_URL = None \/ process_env_API_URL = Some empty ->
          API_URL process_env_API_URL = lit "http://localhost:8000")
    /\ API_URL (Some (NextConfig.env_API_URL process_env_API_URL))
       = API_URL process_env_API_URL
    /\ map NextConfig.destination (NextConfig.rewrites process_env_API_URL)
       = [(API_URL process_env_API_URL ++ lit "/:path*")%list].
Proof.
  intros env. unfold API_URL, NextConfig.env_API_URL.
  split; [|split; [|split; [|split; [|split]]]].
  - apply TableMore.or_else_truthy. reflexivity.
  - reflexivity.
  - intros u -> Hu. simpl. rewrite Hu. reflexivity.
  - intros [->| ->]; reflexivity.
  - apply or_else_idempotent.
  - reflexivity.
Qed.

End ApiMore.

(* ================================================================== *)
(** ** More about the scrape form                                      *)
(* ================================================================== *)

Module FormMore.

Import Js Async Api Form Tracking.
Local Open Scope string_scope.

(** X7: when [onError] does not throw, a submission never rejects: blank
    query, rejected request, fulfilled request, even an [onSuccess] that
    throws, the promise of [handleSubmit] resolves. *)
Theorem submit_never_rejects :
  forall (props : Props) (net : Network) (st : State),
    (forall e : Error, onError props e = None) ->
    snd (submit props net st) = inr tt.
Proof.
  intros props net st Hquiet.
  destruct (truthy_string (trim (query st))) eqn:Ht.
  - destruct (net ScrapeResponseT (scrape (query st)))
      as [e|response] eqn:Hnet.
    + rewrite (FormSpec.submit_rejected props net st _ e Ht eq_refl Hnet).
      simpl. rewrite Hquiet. reflexivity.
    + change (AxiosResponse ScrapeResponse) in response.
      rewrite (FormSpec.submit_fulfilled props net st _ response Ht eq_refl Hnet).
      simpl. destruct (onSuccess props (data response)); [|reflexivity].
      rewrite Hquiet. reflexivity.
  - rewrite (FormSpec.submit_blank props net st Ht). reflexivity.
Qed.

Lemma submit_never_rejects_witness :
  snd (submit {| onSuccess := fun _ => Some (Thrown "boom");
                 onError := fun _ => None |}
         Samples.online Samples.typed) = inr tt.
Proof.
  apply (submit_never_rejects
           {| onSuccess := fun _ => Some (Thrown "boom");
              onError := fun _ => None |}
           Samples.online Samples.typed).
  intros e. reflexivity.
Defined.

End FormMore.

(* ================================================================== *)
(** ** The books of the mounted form                                   *)
(* ================================================================== *)

Module FormBooks.

Import Js Async Api Form Tracking.
Local Open Scope string_scope.

Lemma count_app (A : Type) (f : A -> bool) (l l' : list A) :
  count f (l ++ l') = (count f l + count f l')%nat.
Proof.
  unfold count. rewrite filter_app, length_app. reflexivity.
Qed.

(** The first stretch of a submission, in full. *)
Lemma handleSubmit_blank_stretch (props : Props) (q : JsString) (st : State) :
  truthy_string (trim q) = false ->
  run_sync (handle_now props) (handleSubmit q) st
  = (st, [obs PreventDefault; obs (Alert "Please enter a search query")],
     Finished (inr tt)).
Proof.
  intros H. unfold handleSubmit. simpl. rewrite H. reflexivity.
Qed.

Lemma handleSubmit_sent_stretch (props : Props) (q : JsString) (st : State) :
  truthy_string (trim q) = true ->
  exists k : Settled ScrapeResponseT -> Prog formE unit,
    run_sync (handle_now props) (handleSubmit q) st
    = ({| query := query st; isLoading := true |},
       [obs PreventDefault; obs (SetIsLoading true);
        obs (Call (Axios ScrapeResponseT (scrape q)))],
       Awaiting (Call (Axios ScrapeResponseT (scrape q))) k)
    /\ rest_of_submit props q
         (existT _ _ (Call (Axios ScrapeResponseT (scrape q)), k)).
Proof.
  intros H. unfold handleSubmit. simpl. rewrite H. simpl.
  eexists. split; [reflexivity|].
  eexists. split; [reflexivity|].
  intros x st0. unfold Settled, payload in x.
  destruct x as [e|response]; simpl.
  - destruct (onError props e); simpl;
      do 2 eexists; repeat split; reflexivity.
  - destruct (onSuccess props (data response)) as [e'|]; simpl.
    + destruct (onError props e'); simpl;
        do 2 eexists; repeat split; reflexivity.
    + do 2 eexists; repeat split; reflexivity.
Qed.

Lemma tracked_mount (props : Props) : tracked props mount.
Proof.
  repeat split. left. split; reflexivity.
Qed.

Lemma tracked_step (props : Props) (s s' : Instance) (a : Action) :
  tracked props s -> step props s a = Some s' -> tracked props s'.
Proof.
  intros [Hon [Hreq [[Hidle Hnone]|[Hbusy [p [Hone Hp]]]]]].
  - (* nothing is loading *)
    rewrite Hnone in Hreq. simpl in Hreq.
    destruct a as [v| |n net]; unfold step; simpl; try rewrite Hidle.
    + intros H. injection H as <-. unfold launch, tracked. simpl.
      rewrite !count_app, Hidle, Hnone. unfold count in *. simpl.
      repeat split; try lia. left. split; reflexivity.
    + intros H. injection H as <-. unfold launch.
      destruct (truthy_string (trim (query (state s)))) eqn:Ht.
      * destruct (handleSubmit_sent_stretch props (query (state s)) (state s) Ht)
          as [k [Hrun Hrest]].
        rewrite Hrun. unfold tracked. simpl. rewrite !count_app, Hnone. unfold count in *. simpl.
        repeat split; try lia.
        right. split; [reflexivity|]. eexists. split; [reflexivity|].
        exact Hrest.
      * rewrite (handleSubmit_blank_stretch props _ (state s) Ht).
        unfold tracked. simpl. rewrite !count_app, Hnone. unfold count in *. simpl.
        repeat split; try lia. left. split; [exact Hidle | reflexivity].
    + rewrite Hnone. destruct n; discriminate.
  - (* a request is in flight *)
    rewrite Hone in Hreq. simpl in Hreq.
    destruct a as [v| |n net]; unfold step; simpl; try rewrite Hbusy;
      try discriminate.
    rewrite Hone. destruct n as [|n]; simpl; [|destruct n; discriminate].
    destruct Hp as [k [-> Hk]]. intros H. injection H as <-.
    destruct (Hk (net ScrapeResponseT (scrape (query (state s)))) (state s))
      as [tr [r [Hrun [Hr [Ho Hf]]]]].
    unfold launch. simpl. rewrite Hrun. unfold tracked. simpl.
    rewrite !count_app. unfold count in *. simpl.
    repeat split; try lia. left. split; reflexivity.
Qed.

Lemma tracked_act (props : Props) (s : Instance) (a : Action) :
  tracked props s -> tracked props (act props s a).
Proof.
  intros H. unfold act. destruct (step props s a) eqn:Hs.
  - exact (tracked_step props s i a H Hs).
  - exact H.
Qed.

Lemma tracked_after (props : Props) (actions : list Action) :
  tracked props (after props actions).
Proof.
  unfold after. generalize (tracked_mount props). generalize mount.
  induction actions as [|a actions IH]; intros s H; simpl.
  - exact H.
  - apply IH, tracked_act, H.
Qed.

(** X8: in every history of a mounted form the loading flag was turned on
    exactly once per request sent, and turned off exactly once per request
    that has settled: the requests sent are those settled and those still
    in flight. *)
Theorem loading_flag_brackets_requests :
  forall (props : Props) (actions : list Action),
    count is_loading_on (log (after props actions))
    = count is_request (log (after props actions))
    /\ count is_request (log (after props actions))
       = (count is_loading_off (log (after props actions))
          + List.length (inflight (after props actions)))%nat.
Proof.
  intros props actions.
  destruct (tracked_after props actions) as [Hon [Hreq _]].
  split; assumption.
Qed.



End FormBooks.

(* ================================================================== *)
(** ** The page                                                        *)
(* ================================================================== *)

Module PageSpec.

Import Js Async Api Page PageTracking.
Local Open Scope string_scope.

(** X10: a load asks once, for the leads under the page's filter.  When the
    request is fulfilled the leads are replaced by the response's and the
    error is cleared; when it is rejected the leads stay as they were and
    the failure message is set.  Either way [loading] ends off, the stats
    and the filter are untouched, and [loadLeads] does not reject. *)
Theorem loadLeads_outcomes :
  forall (net : Network) (st : State),
    (forall response : AxiosResponse (list Lead),
       net LeadsT (leads_request (highPriorityOnly st)) = inr response ->
       load net st
       = ({| leads := data response; loading := false;
             scrapeStats := scrapeStats st; error := None;
             highPriorityOnly := highPriorityOnly st |},
          [obs (SetLoading true); obs (SetError None);
           obs (Api (Axios LeadsT (leads_request (highPriorityOnly st))));
           obs (SetLeads (data response)); obs (SetLoading false)],
          inr tt))
    /\ (forall e : Error,
          net LeadsT (leads_request (highPriorityOnly st)) = inl e ->
          load net st
          = ({| leads := leads st; loading := false;
                scrapeStats := scrapeStats st; error := Some load_failed;
                highPriorityOnly := highPriorityOnly st |},
             [obs (SetLoading true); obs (SetError None);
              obs (Api (Axios LeadsT (leads_request (highPriorityOnly st))));
              obs (Api (ConsoleError "Error fetching leads:" e));
              obs (Console "Error loading leads:" e);
              obs (SetError (Some load_failed)); obs (SetLoading false)],
             inr tt)).
Proof.
  intros net st. split.
  - intros response H. unfold load, loadLeads. simpl.
    unfold leads_request in H. rewrite H. reflexivity.
  - intros e H. unfold load, loadLeads. simpl.
    unfold leads_request in H. rewrite H. reflexivity.
Qed.

Lemma loadLeads_witness :
  load Samples.offline initial
  = ({| leads := []; loading := false; scrapeStats := None;
        error := Some load_failed; highPriorityOnly := false |},
     [obs (SetLoading true); obs (SetError None);
      obs (Api (Axios LeadsT (leads_request false)));
      obs (Api (ConsoleError "Error fetching leads:" Samples.network_error));
      obs (Console "Error loading leads:" Samples.network_error);
      obs (SetError (Some load_failed)); obs (SetLoading false)],
     inr tt).
Proof.
  apply (proj2 (loadLeads_outcomes Samples.offline initial)
           Samples.network_error).
  reflexivity.
Defined.

(** Starting a load: [loading] on, error cleared, one request sent, the
    rest pending. *)
Lemma start_load_eq (b : bool) (m : Mounted) :
  exists p : LoadPending,
    start_load b m
    = {| state := set_error None (set_loading true (state m));
         form := form m; scrapes := scrapes m;
         loads := loads m ++ [p];
         sent := sent m ++ [leads_request b] |}
    /\ rest_of_load b p.
Proof.
  unfold start_load, continue_load, loadLeads. simpl.
  eexists. split; [reflexivity|].
  eexists. split; [reflexivity|].
  intros x st. unfold Settled, payload in x.
  destruct x as [e|response]; simpl; do 2 eexists; reflexivity.
Qed.

(** The first stretch of a submission inside the page. *)
Lemma submit_blank_eq (b : bool) (q : JsString) (m : Mounted) :
  truthy_string (trim q) = false ->
  continue_form b (Form.handleSubmit q) m = m.
Proof.
  intros H. unfold continue_form, Form.handleSubmit. simpl. rewrite H.
  reflexivity.
Qed.

Lemma submit_sent_eq (b : bool) (q : JsString) (m : Mounted) :
  truthy_string (trim q) = true ->
  exists sp : ScrapePending,
    continue_form b (Form.handleSubmit q) m
    = {| state := state m;
         form := {| Form.query := Form.query (form m);
                    Form.isLoading := true |};
         scrapes := scrapes m ++ [sp];
         loads := loads m;
         sent := sent m ++ [scrape_request q] |}
    /\ rest_of_scrape b q sp.
Proof.
  intros H. unfold continue_form, Form.handleSubmit. simpl. rewrite H. simpl.
  eexists. split; [reflexivity|].
  eexists. split; [reflexivity|].
  intros x m0. unfold Settled, payload in x.
  destruct x as [e|response]; reflexivity.
Qed.

Lemma edit_eq (b : bool) (v : JsString) (m : Mounted) :
  continue_form b (Form.handleChange v) m
  = with_form {| Form.query := v; Form.isLoading := Form.isLoading (form m) |} m.
Proof. reflexivity. Qed.

Lemma Forall_remove_nth (A : Type) (P : A -> Prop) (n : nat) (l : list A) :
  Forall P l -> Forall P (Form.remove_nth n l).
Proof.
  unfold Form.remove_nth. revert n.
  induction l as [|a l IH]; intros n H.
  - destruct n; constructor.
  - inversion H as [|a' l' Ha Hl]; subst. destruct n as [|n]; simpl.
    + exact Hl.
    + constructor; [exact Ha | apply IH, Hl].
Qed.

Lemma stats_shown_eq (m : Mounted) :
  stats_shown m
  = match scrapeStats (state m) with Some _ => true | None => false end.
Proof.
  unfold stats_shown, HomePage. simpl.
  destruct (scrapeStats (state m)); reflexivity.
Qed.

(** What starting a load changes, and what it leaves alone. *)
Lemma start_load_facts (b : bool) (m : Mounted) :
  Forall (fun p => exists b, rest_of_load b p) (loads m) ->
  Forall (fun p => exists b, rest_of_load b p) (loads (start_load b m))
  /\ loads (start_load b m) <> []
  /\ form (start_load b m) = form m
  /\ scrapes (start_load b m) = scrapes m
  /\ error (state (start_load b m)) = None
  /\ scrapeStats (state (start_load b m)) = scrapeStats (state m).
Proof.
  intros Hloads. destruct (start_load_eq b m) as [p [-> Hp]]. simpl.
  repeat split.
  - apply Forall_app. split; [exact Hloads|].
    constructor; [exists b; exact Hp | constructor].
  - intros H. apply app_eq_nil in H. destruct H as [_ H]. discriminate.
Qed.

Lemma sound_mount : sound mount.
Proof.
  unfold mount.
  destruct (start_load_facts false
              {| state := initial; form := Form.initial; scrapes := [];
                 loads := []; sent := [] |})
    as [Hl [Hne [Hf [Hsc [He _]]]]]; [constructor|].
  repeat split.
  - exact Hl.
  - intros _. exact Hne.
  - left. rewrite Hf, Hsc. split; reflexivity.
  - left. exact He.
Qed.

(** Every step keeps the page sound, and keeps the stats on screen. *)
Lemma sound_step (m m' : Mounted) (a : Action) :
  sound m -> step m a = Some m' ->
  sound m' /\ (stats_shown m = true -> stats_shown m' = true).
Proof.
  intros Hs. pose proof Hs as [Hloads [Hloading [Hform Herr]]].
  destruct a as [v| | |n net|n net]; unfold step; simpl.
  - (* an edit *)
    destruct (Form.isLoading (form m)) eqn:Hl; [discriminate|].
    intros H. injection H as <-. rewrite edit_eq. split; [|auto].
    destruct Hform as [[_ Hnone]|[Hbusy _]]; [|congruence].
    repeat split; simpl; try assumption. left. split; assumption.
  - (* a submission *)
    destruct (Form.isLoading (form m)) eqn:Hl; [discriminate|].
    intros H. injection H as <-.
    destruct Hform as [[_ Hnone]|[Hbusy _]]; [|congruence].
    destruct (truthy_string (trim (Form.query (form m)))) eqn:Ht.
    + destruct (submit_sent_eq (highPriorityOnly (state m)) _ m Ht)
        as [sp [-> Hsp]].
      split; [|auto]. repeat split; simpl; try assumption.
      right. split; [reflexivity|]. rewrite Hnone.
      exists (highPriorityOnly (state m)), sp. split; [reflexivity|exact Hsp].
    + rewrite (submit_blank_eq _ _ m Ht). split; [exact Hs | auto].
  - (* the filter is flipped *)
    intros H. injection H as <-.
    destruct (start_load_facts (negb (highPriorityOnly (state m)))
                (with_state (set_highPriorityOnly
                               (negb (highPriorityOnly (state m))) (state m)) m)
                Hloads)
      as [Hl [Hne [Hf [Hsc [He Hstats]]]]].
    split.
    + repeat split.
      * exact Hl.
      * intros _. exact Hne.
      * rewrite Hf, Hsc. exact Hform.
      * left. exact He.
    + rewrite !stats_shown_eq, Hstats. simpl. auto.
  - (* a scrape settles *)
    destruct Hform as [[_ Hnone]|[Hbusy [b [sp [Hone [k [-> Hk]]]]]]].
    + rewrite Hnone. destruct n; discriminate.
    + rewrite Hone. destruct n as [|n]; simpl; [|destruct n; discriminate].
      intros H. injection H as <-. rewrite Hk. unfold form_answer.
      destruct (net ScrapeResponseT (scrape_request (Form.query (form m))))
        as [e|response].
      * simpl. split; [|auto]. repeat split; simpl; try assumption.
        -- left. split; reflexivity.
        -- right. right. reflexivity.
      * match goal with
        | |- context [start_load b ?M] =>
            destruct (start_load_facts b M Hloads)
              as [Hl [Hne [Hf [Hsc [He Hstats]]]]];
            set (S := start_load b M) in *; clearbody S
        end.
        split.
        -- repeat split; simpl.
           ++ exact Hl.
           ++ intros _. exact Hne.
           ++ left. split; [reflexivity | exact Hsc].
           ++ left. exact He.
        -- intros _. rewrite stats_shown_eq. simpl. rewrite Hstats.
           reflexivity.
  - (* a load settles *)
    destruct (nth_error (loads m) n) as [p|] eqn:Hn; [|discriminate].
    assert (Hp : exists b, rest_of_load b p).
    { apply (proj1 (Forall_forall _ (loads m)) Hloads).
      exact (nth_error_In _ _ Hn). }
    destruct Hp as [b [k [-> Hk]]]. intros H. injection H as <-.
    unfold continue_load. simpl.
    destruct (Hk (net LeadsT (leads_request b)) (state m)) as [tr [r ->]].
    split.
    + repeat split; simpl.
      * apply Forall_remove_nth, Hloads.
      * destruct (net LeadsT (leads_request b)); discriminate.
      * exact Hform.
      * destruct (net LeadsT (leads_request b)); simpl;
          [right; left; reflexivity | exact Herr].
    + rewrite !stats_shown_eq. simpl.
      destruct (net LeadsT (leads_request b)); simpl; auto.
Qed.

Lemma sound_act (m : Mounted) (a : Action) :
  sound m -> sound (act m a) /\ (stats_shown m = true -> stats_shown (act m a) = true).
Proof.
  intros H. unfold act. destruct (step m a) eqn:Hs.
  - exact (sound_step m m0 a H Hs).
  - split; auto.
Qed.

Lemma sound_fold (actions : list Action) (m : Mounted) :
  sound m ->
  sound (fold_left act actions m)
  /\ (stats_shown m = true -> stats_shown (fold_left act actions m) = true).
Proof.
  revert m. induction actions as [|a actions IH]; intros m H; simpl.
  - split; auto.
  - destruct (sound_act m a H) as [Hs Hk].
    destruct (IH (act m a) Hs) as [Hs' Hk']. split; auto.
Qed.

Lemma sound_after (actions : list Action) : sound (after actions).
Proof. apply sound_fold, sound_mount. Qed.


(** X12: once a scrape has succeeded the stats section stays on screen,
    whatever happens next; a later failure does not take it away. *)
Theorem stats_stay_on_screen :
  forall actions more : list Action,
    stats_shown (after actions) = true ->
    stats_shown (after (actions ++ more)) = true.
Proof.
  intros actions more H. unfold after. rewrite fold_left_app.
  apply (sound_fold more (fold_left act actions mount)).
  - apply sound_after.
  - exact H.
Qed.

Lemma stats_stay_witness :
  stats_shown
    (after ([LoadSettles 0 Samples.online; Edit (lit "plumbers"); Submit;
             ScrapeSettles 0 Samples.online]
            ++ [Edit (lit "roofers"); Submit;
                ScrapeSettles 0 Samples.offline;
                LoadSettles 0 Samples.offline]))
  = true.
Proof.
  apply (stats_stay_on_screen
           [LoadSettles 0 Samples.online; Edit (lit "plumbers"); Submit;
            ScrapeSettles 0 Samples.online]).
  reflexivity.
Defined.

(** The steps, one by one. *)
Lemma act_submit (m : Mounted) :
  Form.isLoading (form m) = false ->
  act m Submit
  = continue_form (highPriorityOnly (state m))
      (Form.handleSubmit (Form.query (form m))) m.
Proof.
  intros H. unfold act, step. simpl. rewrite H. reflexivity.
Qed.

Lemma act_toggle (m : Mounted) :
  act m ToggleFilter
  = start_load (negb (highPriorityOnly (state m)))
      (with_state (set_highPriorityOnly (negb (highPriorityOnly (state m)))
                     (state m)) m).
Proof. reflexivity. Qed.

Lemma act_scrape_settles (m : Mounted) (net : Network) (b : bool)
      (q : JsString) (sp : ScrapePending) :
  scrapes m = [sp] -> rest_of_scrape b q sp ->
  act m (ScrapeSettles 0 net)
  = match net ScrapeResponseT (scrape_request q) with
    | inl _ =>
        {| state := set_error (Some scrape_failed) (state m);
           form := {| Form.query := Form.query (form m);
                      Form.isLoading := false |};
           scrapes := []; loads := loads m; sent := sent m |}
    | inr response =>
        with_form {| Form.query := empty; Form.isLoading := false |}
          (start_load b
             {| state := set_scrapeStats (data response) (state m);
                form := form m; scrapes := []; loads := loads m;
                sent := sent m |})
    end.
Proof.
  intros Hone [k [-> Hk]]. unfold act, step. rewrite Hone. simpl.
  rewrite Hk.
  destruct (net ScrapeResponseT (scrape_request q)); reflexivity.
Qed.

Lemma act_load_settles (m : Mounted) (net : Network) (b : bool) (n : nat)
      (p : LoadPending) :
  nth_error (loads m) n = Some p -> rest_of_load b p ->
  act m (LoadSettles n net)
  = {| state :=
         set_loading false
           match net LeadsT (leads_request b) with
           | inl _ => set_error (Some load_failed) (state m)
           | inr response => set_leads (data response) (state m)
           end;
       form := form m; scrapes := scrapes m;
       loads := Form.remove_nth n (loads m); sent := sent m |}.
Proof.
  intros Hn [k [-> Hk]]. unfold act, step. rewrite Hn. simpl.
  unfold continue_load. simpl.
  destruct (Hk (net LeadsT (leads_request b)) (state m)) as [tr [r ->]].
  reflexivity.
Qed.

(** X13: on a page with nothing in flight and a query typed in, a
    submission whose scrape is fulfilled and whose reload is fulfilled ends
    with the stats of the scrape on screen, the leads of the reload in the
    table, no error, the form empty and enabled, and two requests sent: the
    scrape of the query and the leads under the filter. *)
Theorem fulfilled_scrape_reloads_leads :
  forall (m : Mounted) (net1 net2 : Network)
         (response : AxiosResponse ScrapeResponse)
         (answer : AxiosResponse (list Lead)),
    quiescent m ->
    truthy_string (trim (Form.query (form m))) = true ->
    net1 ScrapeResponseT (scrape_request (Form.query (form m))) = inr response ->
    net2 LeadsT (leads_request (highPriorityOnly (state m))) = inr answer ->
    fold_left act [Submit; ScrapeSettles 0 net1; LoadSettles 0 net2] m
    = {| state := {| leads := data answer; loading := false;
                     scrapeStats := Some (data response); error := None;
                     highPriorityOnly := highPriorityOnly (state m) |};
         form := {| Form.query := empty; Form.isLoading := false |};
         scrapes := []; loads := [];
         sent := sent m ++ [scrape_request (Form.query (form m));
                            leads_request (highPriorityOnly (state m))] |}.
Proof.
  intros m net1 net2 response answer [Hsc [Hlo Hidle]] Ht Hnet1 Hnet2.
  cbn [fold_left]. rewrite (act_submit m Hidle).
  destruct (submit_sent_eq (highPriorityOnly (state m)) _ m Ht)
    as [sp [-> Hsp]].
  rewrite Hsc, Hlo. cbn [app].
  match goal with
  | |- context [act ?M (ScrapeSettles 0 net1)] =>
      rewrite (act_scrape_settles M net1 _ _ sp eq_refl Hsp), Hnet1
  end.
  cbn [state form scrapes loads sent].
  match goal with
  | |- context [start_load ?b ?M] =>
      destruct (start_load_eq b M) as [p [-> Hp]]
  end.
  cbn [state form scrapes loads sent with_form app].
  match goal with
  | |- context [act ?M (LoadSettles 0 net2)] =>
      rewrite (act_load_settles M net2 _ 0 p eq_refl Hp)
  end.
  cbn [state form scrapes loads sent]. rewrite Hnet2.
  rewrite <- app_assoc. reflexivity.
Qed.

Lemma fulfilled_scrape_witness :
  fold_left act
    [Submit; ScrapeSettles 0 Samples.online; LoadSettles 0 Samples.online]
    PageSamples.ready
  = {| state := {| leads := data PageSamples.leads_response;
                   loading := false;
                   scrapeStats := Some (data PageSamples.scrape_response);
                   error := None;
                   highPriorityOnly :=
                     highPriorityOnly (state PageSamples.ready) |};
       form := {| Form.query := empty; Form.isLoading := false |};
       scrapes := []; loads := [];
       sent := sent PageSamples.ready
               ++ [scrape_request (Form.query (form PageSamples.ready));
                   leads_request (highPriorityOnly (state PageSamples.ready))] |}.
Proof.
  apply (fulfilled_scrape_reloads_leads PageSamples.ready
           Samples.online Samples.online
           PageSamples.scrape_response PageSamples.leads_response).
  - repeat split.
  - reflexivity.
  - reflexivity.
  - reflexivity.
Defined.

(** X14: on such a page, a submission whose scrape is rejected sets the
    scrape failure message and gives the form back with its query; the
    leads, the stats, the spinner and the filter are as before, and no
    reload is requested. *)
Theorem rejected_scrape_reports_error :
  forall (m : Mounted) (net : Network) (e : Error),
    quiescent m ->
    truthy_string (trim (Form.query (form m))) = true ->
    net ScrapeResponseT (scrape_request (Form.query (form m))) = inl e ->
    fold_left act [Submit; ScrapeSettles 0 net] m
    = {| state := {| leads := leads (state m); loading := loading (state m);
                     scrapeStats := scrapeStats (state m);
                     error := Some scrape_failed;
                     highPriorityOnly := highPriorityOnly (state m) |};
         form := {| Form.query := Form.query (form m);
                    Form.isLoading := false |};
         scrapes := []; loads := [];
         sent := sent m ++ [scrape_request (Form.query (form m))] |}.
Proof.
  intros m net e [Hsc [Hlo Hidle]] Ht Hnet.
  cbn [fold_left]. rewrite (act_submit m Hidle).
  destruct (submit_sent_eq (highPriorityOnly (state m)) _ m Ht)
    as [sp [-> Hsp]].
  rewrite Hsc, Hlo. cbn [app].
  match goal with
  | |- context [act ?M (ScrapeSettles 0 net)] =>
      rewrite (act_scrape_settles M net _ _ sp eq_refl Hsp), Hnet
  end.
  reflexivity.
Qed.

Lemma rejected_scrape_witness :
  fold_left act [Submit; ScrapeSettles 0 Samples.offline] PageSamples.ready
  = {| state := {| leads := leads (state PageSamples.ready);
                   loading := loading (state PageSamples.ready);
                   scrapeStats := scrapeStats (state PageSamples.ready);
                   error := Some scrape_failed;
                   highPriorityOnly :=
                     highPriorityOnly (state PageSamples.ready) |};
       form := {| Form.query := Form.query (form PageSamples.ready);
                  Form.isLoading := false |};
       scrapes := []; loads := [];
       sent := sent PageSamples.ready
               ++ [scrape_request (Form.query (form PageSamples.ready))] |}.
Proof.
  apply (rejected_scrape_reports_error PageSamples.ready Samples.offline
           Samples.network_error).
  - repeat split.
  - reflexivity.
  - reflexivity.
Defined.

(** X15: the reload after a fulfilled scrape asks for the leads under the
    filter as it was when the form was submitted.  When the filter is
    flipped while the scrape is in flight, two loads follow, the flip's and
    then the scrape's; answered in that order, they leave the table with
    the leads of the old filter under a checkbox that shows the new one. *)
Theorem reload_after_scrape_uses_filter_at_submit :
  forall (m : Mounted) (net1 net2 : Network)
         (response : AxiosResponse ScrapeResponse)
         (flipped kept : AxiosResponse (list Lead)),
    quiescent m ->
    truthy_string (trim (Form.query (form m))) = true ->
    net1 ScrapeResponseT (scrape_request (Form.query (form m))) = inr response ->
    net2 LeadsT (leads_request (negb (highPriorityOnly (state m)))) = inr flipped ->
    net2 LeadsT (leads_request (highPriorityOnly (state m))) = inr kept ->
    fold_left act
      [Submit; ToggleFilter; ScrapeSettles 0 net1;
       LoadSettles 0 net2; LoadSettles 0 net2] m
    = {| state := {| leads := data kept; loading := false;
                     scrapeStats := Some (data response); error := None;
                     highPriorityOnly := negb (highPriorityOnly (state m)) |};
         form := {| Form.query := empty; Form.isLoading := false |};
         scrapes := []; loads := [];
         sent := sent m
                 ++ [scrape_request (Form.query (form m));
                     leads_request (negb (highPriorityOnly (state m)));
                     leads_request (highPriorityOnly (state m))] |}.
Proof.
  intros m net1 net2 response flipped kept [Hsc [Hlo Hidle]] Ht Hnet1 Hf Hk.
  cbn [fold_left]. rewrite (act_submit m Hidle).
  destruct (submit_sent_eq (highPriorityOnly (state m)) _ m Ht)
    as [sp [-> Hsp]].
  rewrite Hsc, Hlo. cbn [app]. rewrite act_toggle.
  cbn [state form scrapes loads sent with_state set_highPriorityOnly
         highPriorityOnly].
  match goal with
  | |- context [start_load ?b ?M] =>
      destruct (start_load_eq b M) as [p1 [-> Hp1]]
  end.
  cbn [state form scrapes loads sent app].
  match goal with
  | |- context [act ?M (ScrapeSettles 0 net1)] =>
      rewrite (act_scrape_settles M net1 _ _ sp eq_refl Hsp), Hnet1
  end.
  cbn [state form scrapes loads sent].
  match goal with
  | |- context [start_load ?b ?M] =>
      destruct (start_load_eq b M) as [p2 [-> Hp2]]
  end.
  cbn [state form scrapes loads sent with_form app].
  match goal with
  | |- context [act ?M (LoadSettles 0 net2)] =>
      rewrite (act_load_settles M net2 _ 0 p1 eq_refl Hp1)
  end.
  cbn [state form scrapes loads sent Form.remove_nth firstn skipn app].
  match goal with
  | |- context [act ?M (LoadSettles 0 net2)] =>
      rewrite (act_load_settles M net2 _ 0 p2 eq_refl Hp2)
  end.
  cbn [state form scrapes loads sent Form.remove_nth firstn skipn app].
  rewrite Hf, Hk. simpl. rewrite <- !app_assoc. reflexivity.
Qed.

Lemma reload_after_scrape_witness :
  fold_left act
    [Submit; ToggleFilter; ScrapeSettles 0 PageSamples.filtering;
     LoadSettles 0 PageSamples.filtering; LoadSettles 0 PageSamples.filtering]
    PageSamples.ready
  = {| state := {| leads := data PageSamples.leads_response;
                   loading := false;
                   scrapeStats := Some (data PageSamples.scrape_response);
                   error := None;
                   highPriorityOnly :=
                     negb (highPriorityOnly (state PageSamples.ready)) |};
       form := {| Form.query := empty; Form.isLoading := false |};
       scrapes := []; loads := [];
       sent := sent PageSamples.ready
               ++ [scrape_request (Form.query (form PageSamples.ready));
                   leads_request
                     (negb (highPriorityOnly (state PageSamples.ready)));
                   leads_request (highPriorityOnly (state PageSamples.ready))] |}.
Proof.
  apply (reload_after_scrape_uses_filter_at_submit PageSamples.ready
           PageSamples.filtering PageSamples.filtering
           PageSamples.scrape_response
           PageSamples.high_priority_response PageSamples.leads_response).
  - repeat split.
  - reflexivity.
  - reflexivity.
  - reflexivity.
  - reflexivity.
Defined.

(** X16: the table shows the leads of the response that arrives last, not
    of the request made last.  After the filter is flipped and flipped back
    with no load in flight before, two loads are pending; answered in the
    order they were sent the table ends with the leads of the current
    filter, answered in the other order with those of the flipped one,
    under the same checkbox. *)
Theorem last_response_wins :
  forall (m : Mounted) (net : Network)
         (flipped current : AxiosResponse (list Lead)),
    loads m = [] ->
    net LeadsT (leads_request (negb (highPriorityOnly (state m)))) = inr flipped ->
    net LeadsT (leads_request (highPriorityOnly (state m))) = inr current ->
    state (fold_left act
             [ToggleFilter; ToggleFilter; LoadSettles 0 net; LoadSettles 0 net]
             m)
    = {| leads := data current; loading := false;
         scrapeStats := scrapeStats (state m); error := None;
         highPriorityOnly := highPriorityOnly (state m) |}
    /\ state (fold_left act
                [ToggleFilter; ToggleFilter; LoadSettles 1 net; LoadSettles 0 net]
                m)
       = {| leads := data flipped; loading := false;
            scrapeStats := scrapeStats (state m); error := None;
            highPriorityOnly := highPriorityOnly (state m) |}.
Proof.
  intros m net flipped current Hlo Hf Hc.
  cbn [fold_left]. rewrite (act_toggle m).
  match goal with
  | |- context [start_load ?b ?M] =>
      destruct (start_load_eq b M) as [p1 [-> Hp1]]
  end.
  rewrite act_toggle.
  cbn [state form scrapes loads sent with_state set_highPriorityOnly
         highPriorityOnly set_error set_loading].
  rewrite negb_involutive, Hlo. cbn [app].
  match goal with
  | |- context [start_load ?b ?M] =>
      destruct (start_load_eq b M) as [p2 [-> Hp2]]
  end.
  cbn [state form scrapes loads sent app].
  split.
  - match goal with
    | |- context [act ?M (LoadSettles 0 net)] =>
        rewrite (act_load_settles M net _ 0 p1 eq_refl Hp1)
    end.
    cbn [state form scrapes loads sent Form.remove_nth firstn skipn app].
    match goal with
    | |- context [act ?M (LoadSettles 0 net)] =>
        rewrite (act_load_settles M net _ 0 p2 eq_refl Hp2)
    end.
    rewrite Hf, Hc. reflexivity.
  - match goal with
    | |- context [act ?M (LoadSettles 1 net)] =>
        rewrite (act_load_settles M net _ 1 p2 eq_refl Hp2)
    end.
    cbn [state form scrapes loads sent Form.remove_nth firstn skipn app].
    match goal with
    | |- context [act ?M (LoadSettles 0 net)] =>
        rewrite (act_load_settles M net _ 0 p1 eq_refl Hp1)
    end.
    rewrite Hf, Hc. reflexivity.
Qed.

Lemma last_response_witness :
  state (fold_left act
           [ToggleFilter; ToggleFilter;
            LoadSettles 0 PageSamples.filtering;
            LoadSettles 0 PageSamples.filtering]
           PageSamples.ready)
  = {| leads := data PageSamples.leads_response; loading := false;
       scrapeStats := scrapeStats (state PageSamples.ready); error := None;
       highPriorityOnly := highPriorityOnly (state PageSamples.ready) |}
  /\ state (fold_left act
              [ToggleFilter; ToggleFilter;
               LoadSettles 1 PageSamples.filtering;
               LoadSettles 0 PageSamples.filtering]
              PageSamples.ready)
     = {| leads := data PageSamples.high_priority_response; loading := false;
          scrapeStats := scrapeStats (state PageSamples.ready); error := None;
          highPriorityOnly := highPriorityOnly (state PageSamples.ready) |}.
Proof.
  apply (last_response_wins PageSamples.ready PageSamples.filtering
           PageSamples.high_priority_response PageSamples.leads_response).
  - reflexivity.
  - reflexivity.
  - reflexivity.
Defined.

(** X17: the first paint.  On mount the page sends one request, for all
    leads, and shows the spinner with no stats and no banner.  When that
    request is rejected the page shows the load failure banner over the
    empty message; when it is fulfilled it shows what the table makes of
    the leads received (the empty message for none) and no banner. *)
Theorem first_paint :
  forall net : Network,
    sent mount = [leads_request false]
    /\ HomePage (state mount)
       = {| stats_section := None; error_banner := None;
            filter_checked := false; leads_table := Table.Spinner |}
    /\ HomePage (state (act mount (LoadSettles 0 net)))
       = match net LeadsT (leads_request false) with
         | inl _ =>
             {| stats_section := None; error_banner := Some load_failed;
                filter_checked := false;
                leads_table := Table.NoLeadsFound |}
         | inr response =>
             {| stats_section := None; error_banner := None;
                filter_checked := false;
                leads_table := Table.LeadsTable (data response) false |}
         end
    /\ sent (act mount (LoadSettles 0 net)) = [leads_request false]
    /\ loads (act mount (LoadSettles 0 net)) = [].
Proof.
  intros net. split; [reflexivity|]. split; [reflexivity|].
  unfold act, step, mount, start_load, continue_load. simpl.
  destruct (net LeadsT (leads_request false)) as [e|response] eqn:H;
    unfold leads_request in H; rewrite H; simpl; repeat split.
Qed.

End PageSpec.

(* ================================================================== *)
(** ** What the form shows                                             *)
(* ================================================================== *)

Module FormView.

Import Js Async Api Form Tracking.
Local Open Scope string_scope.


End FormView.
